(** * FactCheckMate bot: a shallow embedding of [bot.py] and its properties

    The bot is a one-file Telegram integration script.  Its handlers are
    embedded as functions in a small trace-and-exception monad over the
    process state (the [claims] table and the in-memory [feedback_store]);
    the three outside services (storage, fact-check search, completion API)
    are answers supplied by a [world] record.

    Python [str] values are sequences of Unicode code points, so that
    [claim[:50]], [str.split()] and [str.split(":")] mean what they mean in
    the source. *)

From Stdlib Require Import ZArith NArith Ascii String List Decimal DecimalZ Lia.
From stdpp Require Import base option list gmap.

Local Open Scope Z_scope.

(** ** Python strings *)

Module PyStr.

(** A Python [str]: its code points, in order. *)
Abbreviation pystr := (list N).

(** Decoding of the UTF-8 bytes of a literal of this file into code points. *)
Fixpoint utf8_decode (bs : list N) : pystr :=
  match bs with
  | [] => []
  | b0 :: r0 =>
    if (b0 <? 0x80)%N then b0 :: utf8_decode r0
    else
      match r0 with
      | [] => []
      | b1 :: r1 =>
        if (b0 <? 0xE0)%N
        then ((b0 mod 0x20) * 0x40 + b1 mod 0x40)%N :: utf8_decode r1
        else
          match r1 with
          | [] => []
          | b2 :: r2 =>
            if (b0 <? 0xF0)%N
            then ((b0 mod 0x10) * 0x1000 + (b1 mod 0x40) * 0x40
                  + b2 mod 0x40)%N :: utf8_decode r2
            else
              match r2 with
              | [] => []
              | b3 :: r3 =>
                ((b0 mod 0x8) * 0x40000 + (b1 mod 0x40) * 0x1000
                 + (b2 mod 0x40) * 0x40 + b3 mod 0x40)%N :: utf8_decode r3
              end
          end
      end
  end.

(** A string literal of the source, as a Python [str]. *)
Definition lit (s : string) : pystr :=
  utf8_decode (map N_of_ascii (list_ascii_of_string s)).
Arguments lit : simpl never.

(** The one-character strings the source uses as separators. *)
Definition ch_nl : N := 10%N.          (* "\n" *)
Definition ch_space : N := 32%N.       (* " " *)
Definition ch_colon : N := 58%N.       (* ":" *)
Definition ch_underscore : N := 95%N.  (* "_" *)
Definition ch_minus : N := 45%N.       (* "-" *)

(** [sep.join(parts)] *)
Fixpoint join (sep : pystr) (parts : list pystr) : pystr :=
  match parts with
  | [] => []
  | [p] => p
  | p :: rest => p ++ sep ++ join sep rest
  end.

(** [s[:n]] for a non-negative [n]: the first [n] code points. *)
Definition slice_to (n : nat) (s : pystr) : pystr := take n s.

(** [s.replace(old, new)] when [old] and [new] are single characters. *)
Definition replace (old new : N) (s : pystr) : pystr :=
  map (fun c => if (c =? old)%N then new else c) s.

(** [s.split(sep)] for a one-character separator: cut at every occurrence,
    empty pieces kept.  [cur] holds the piece being read, reversed. *)
Fixpoint split_on_aux (sep : N) (cur : pystr) (s : pystr) : list pystr :=
  match s with
  | [] => [reverse cur]
  | c :: s' =>
    if (c =? sep)%N then reverse cur :: split_on_aux sep [] s'
    else split_on_aux sep (c :: cur) s'
  end.

Definition split_on (sep : N) (s : pystr) : list pystr :=
  split_on_aux sep [] s.

(** [str.isspace] on one character: the code points Python treats as
    whitespace when splitting. *)
Definition is_space (c : N) : bool :=
  ((9 <=? c) && (c <=? 13) || (28 <=? c) && (c <=? 32)
   || (c =? 0x85) || (c =? 0xA0) || (c =? 0x1680)
   || (0x2000 <=? c) && (c <=? 0x200A)
   || (c =? 0x2028) || (c =? 0x2029) || (c =? 0x202F)
   || (c =? 0x205F) || (c =? 0x3000))%N.

(** [s.split()]: the maximal runs of non-whitespace characters. *)
Fixpoint split_ws_aux (cur : pystr) (s : pystr) : list pystr :=
  match s with
  | [] => match cur with [] => [] | _ => [reverse cur] end
  | c :: s' =>
    if is_space c
    then match cur with
         | [] => split_ws_aux [] s'
         | _ => reverse cur :: split_ws_aux [] s'
         end
    else split_ws_aux (c :: cur) s'
  end.

Definition split_ws (s : pystr) : list pystr := split_ws_aux [] s.

(** [str(n)] for an [int]: decimal digits, ["-"] first when negative. *)
Fixpoint digits (u : Decimal.uint) : pystr :=
  match u with
  | Nil => []
  | D0 u => 48%N :: digits u
  | D1 u => 49%N :: digits u
  | D2 u => 50%N :: digits u
  | D3 u => 51%N :: digits u
  | D4 u => 52%N :: digits u
  | D5 u => 53%N :: digits u
  | D6 u => 54%N :: digits u
  | D7 u => 55%N :: digits u
  | D8 u => 56%N :: digits u
  | D9 u => 57%N :: digits u
  end.

Definition str_of_int (n : Z) : pystr :=
  match Z.to_int n with
  | Decimal.Pos u => digits u
  | Decimal.Neg u => ch_minus :: digits u
  end.

Arguments str_of_int : simpl never.

End PyStr.
Import PyStr.

(** ** JSON values and the Python operations the source applies to them *)

Module PyJson.

(** A decoded JSON document ([response.json()], or the completion API's
    response object).  An object is its members in order, keys distinct;
    numbers are integers. *)
#[local] Set Warnings "-register-all".
Inductive json :=
| JNull
| JBool (b : bool)
| JNum (n : Z)
| JStr (s : pystr)
| JArr (items : list json)
| JObj (members : list (pystr * json)).

(** The exceptions the modelled code can meet. *)
Inductive exn :=
| AttributeError | TypeError | KeyError | IndexError | ValueError
| RequestException    (* requests.get / response.json() *)
| OperationalError    (* aiosqlite *)
| OpenAIError.        (* openai.ChatCompletion.create *)

Inductive result (A : Type) :=
| Return (a : A)
| Raise (e : exn).
Arguments Return {A} a.
Arguments Raise {A} e.

Definition result_bind {A B} (r : result A) (k : A -> result B) : result B :=
  match r with
  | Return a => k a
  | Raise e => Raise e
  end.

(** Lookup of a key among the members of an object. *)
Fixpoint member (k : pystr) (ms : list (pystr * json)) : option json :=
  match ms with
  | [] => None
  | (k', v) :: ms' => if decide (k' = k) then Some v else member k ms'
  end.

(** [bool(v)]: Python truthiness. *)
Definition truthy (v : json) : bool :=
  match v with
  | JNull => false
  | JBool b => b
  | JNum n => negb (n =? 0)
  | JStr s => match s with [] => false | _ => true end
  | JArr l => match l with [] => false | _ => true end
  | JObj ms => match ms with [] => false | _ => true end
  end.

(** [v.get(k, dflt)]: only a dict has [get]. *)
Definition py_get (v : json) (k : pystr) (dflt : json) : result json :=
  match v with
  | JObj ms => Return (default dflt (member k ms))
  | _ => Raise AttributeError
  end.

(** [v[k]] for a string key [k]. *)
Definition py_item (v : json) (k : pystr) : result json :=
  match v with
  | JObj ms => match member k ms with
               | Some x => Return x
               | None => Raise KeyError
               end
  | _ => Raise TypeError
  end.

(** [v[0]] *)
Definition py_first (v : json) : result json :=
  match v with
  | JArr (x :: _) => Return x
  | JArr [] => Raise IndexError
  | JStr (c :: _) => Return (JStr [c])
  | JStr [] => Raise IndexError
  | JObj _ => Raise KeyError
  | JNull | JBool _ | JNum _ => Raise TypeError
  end.

End PyJson.
Import PyJson.

(** ** The bot: state, outside world, effects *)

Module Bot.

(** One row of the [claims] table of [claims.db]. *)
Record claim_row := {
  row_id : Z;                  (* INTEGER PRIMARY KEY AUTOINCREMENT *)
  row_user_id : Z;
  row_username : option pystr; (* a Telegram user may have no username *)
  row_claim : pystr;
  row_timestamp : N            (* DEFAULT CURRENT_TIMESTAMP *)
}.

(** The process state: the persisted table and the module-level
    [feedback_store] dict. *)
Record bot_state := {
  claims_table : list claim_row;
  feedback_store : gmap pystr pystr
}.

(** [update.effective_user] *)
Record user := { user_id : Z; username : option pystr }.

(** An [InlineKeyboardButton]. *)
Record button := { label : pystr; callback_data : pystr }.

Inductive parse_mode := Plain | Markdown.

(** What a handler asks of the outside, in order.  Sending to the chat is
    taken to succeed; [DbInsert] is the write [log_claim] attempts, whose
    success is the world's to decide. *)
Inductive event :=
| DbInsert (uid : Z) (uname : option pystr) (claim : pystr)
    (* connect; INSERT INTO claims ... ; commit *)
| FactCheckSearch (query : pystr)   (* requests.get(claims:search) *)
| ChatCompletion (claim : pystr)    (* openai.ChatCompletion.create *)
| LogError                          (* logger.error *)
| AnswerCallback                    (* query.answer() *)
| ReplyText (text : pystr) (mode : parse_mode) (reply_markup : list button).

(** What lies outside [bot.py] during one handler run: the configuration
    read at start-up, the answers of the services, and the interpreter's
    rendering of a list or dict inside an f-string. *)
Record world := {
  ADMIN_IDS : list Z;
  fact_check_search : pystr -> result json;
    (* requests.get(...) then response.json(), for a query *)
  chat_completion : pystr -> result json;
    (* openai.ChatCompletion.create, for a claim *)
  db_commit : result unit;
    (* whether connect, INSERT and commit go through *)
  current_timestamp : N;
  repr_of : json -> pystr
}.

(** A handler body: from the state, the events emitted, the state left
    behind, and a value or the exception that ended the run. *)
Definition handler (A : Type) : Type :=
  bot_state -> list event * bot_state * result A.

Definition ret {A} (a : A) : handler A := fun st => ([], st, Return a).

Definition bind {A B} (m : handler A) (k : A -> handler B) : handler B :=
  fun st =>
    match m st with
    | (tr, st', Return a) =>
        let '(tr', st'', r) := k a st' in (tr ++ tr', st'', r)
    | (tr, st', Raise e) => (tr, st', Raise e)
    end.

Definition raise {A} (e : exn) : handler A := fun st => ([], st, Raise e).
Definition lift {A} (r : result A) : handler A := fun st => ([], st, r).
Definition emit (e : event) : handler unit := fun st => ([e], st, Return tt).
Definition get_state : handler bot_state := fun st => ([], st, Return st).
Definition put_state (st : bot_state) : handler unit :=
  fun _ => ([], st, Return tt).

Declare Scope handler_scope.
Delimit Scope handler_scope with handler.
Notation "x <- m ;; k" := (bind m (fun x => k))
  (at level 100, m at next level, right associativity) : handler_scope.
Notation "m ;; k" := (bind m (fun _ => k))
  (at level 100, right associativity) : handler_scope.
Local Open Scope handler_scope.

(** Projections of a run. *)
Definition trace_of {A} (r : list event * bot_state * result A) := r.1.1.
Definition state_of {A} (r : list event * bot_state * result A) := r.1.2.
Definition outcome_of {A} (r : list event * bot_state * result A) := r.2.

Definition nl : pystr := [ch_nl].

(** [f"{v}"]: [str(v)]. *)
Definition py_str (w : world) (v : json) : pystr :=
  match v with
  | JStr s => s
  | JNull => lit "None"
  | JBool true => lit "True"
  | JBool false => lit "False"
  | JNum n => str_of_int n
  | JArr _ | JObj _ => repr_of w v
  end.

(** [not response] for a value that is [None] or a [str]. *)
Definition falsy (response : option pystr) : bool :=
  match response with
  | None => true
  | Some [] => true
  | Some (_ :: _) => false
  end.

Section Handlers.

Variable w : world.

(** *** query_google_fact_check_api *)

(** Lines 54-71: from the decoded response to the formatted summary. *)
Definition summarize (data : json) : result (option pystr) :=
  result_bind (py_get data (lit "claims") JNull) (fun cs =>
  if negb (truthy cs) then Return None else
  result_bind (py_item data (lit "claims")) (fun cs' =>
  result_bind (py_first cs') (fun c =>
  result_bind (py_get c (lit "text") (JStr (lit "Unknown"))) (fun text =>
  result_bind (py_get c (lit "claimant") (JStr (lit "Unknown"))) (fun source =>
  result_bind (py_get c (lit "claimReview") (JArr [JObj []])) (fun reviews =>
  result_bind (py_first reviews) (fun review =>
  result_bind (py_get review (lit "textualRating") (JStr (lit "Unrated")))
    (fun rating =>
  result_bind (py_get review (lit "publisher") (JObj [])) (fun publisher =>
  result_bind (py_get publisher (lit "name") (JStr (lit "Unknown"))) (fun pub =>
  result_bind (py_get review (lit "url") (JStr [])) (fun url =>
  Return (Some (
    lit "🔎 *Claim:* " ++ py_str w text ++ nl ++
    lit "👤 *Source:* " ++ py_str w source ++ nl ++
    lit "📝 *Rating:* " ++ py_str w rating ++ nl ++
    lit "🏢 *Publisher:* " ++ py_str w pub ++ nl ++
    lit "🔗 [Read more](" ++ py_str w url ++ lit ")"))))))))))))).

Definition query_google_fact_check_api (claim : pystr)
  : handler (option pystr) :=
  emit (FactCheckSearch claim);;
  data <- lift (fact_check_search w claim);;
  lift (summarize data).

(** *** ai_suggest_fact_check *)

Definition unavailable_message : pystr :=
  lit "⚠️ AI check unavailable right now.".

(** The [try] body: the request, then [res['choices'][0]['message']['content']]. *)
Definition completion_content (claim : pystr) : result json :=
  result_bind (chat_completion w claim) (fun res =>
  result_bind (py_item res (lit "choices")) (fun choices =>
  result_bind (py_first choices) (fun choice =>
  result_bind (py_item choice (lit "message")) (fun message =>
  py_item message (lit "content"))))).

Definition ai_suggest_fact_check (claim : pystr) : handler pystr :=
  emit (ChatCompletion claim);;
  match completion_content claim with
  | Return content =>
      ret (lit "🤖 *AI Suggestion:*" ++ nl ++ nl ++ py_str w content)
  | Raise _ =>
      emit LogError;;
      ret unavailable_message
  end.

(** *** init_db, log_claim *)

(** [CREATE TABLE IF NOT EXISTS]: the rows already there stay. *)
Definition init_db : handler unit := ret tt.

(** The id an AUTOINCREMENT column gives the next row: one more than the
    largest id in the table. *)
Definition next_row_id (rows : list claim_row) : Z :=
  1 + foldr (fun r m => Z.max (row_id r) m) 0 rows.

Definition log_claim (u : user) (claim : pystr) : handler unit :=
  emit (DbInsert (user_id u) (username u) claim);;
  lift (db_commit w);;
  st <- get_state;;
  put_state {|
    claims_table :=
      claims_table st ++
      [{| row_id := next_row_id (claims_table st);
          row_user_id := user_id u;
          row_username := username u;
          row_claim := claim;
          row_timestamp := current_timestamp w |}];
    feedback_store := feedback_store st |}.

(** *** create_vote_buttons *)

Definition create_vote_buttons (claim_id : pystr) : list button :=
  [ {| label := lit "👍 Helpful";
       callback_data := lit "vote_yes:" ++ claim_id |};
    {| label := lit "👎 Not Helpful";
       callback_data := lit "vote_no:" ++ claim_id |} ].

(** *** The command handlers *)

Definition start : handler unit :=
  emit (ReplyText
    (lit "🤖 *FactCheckMate* at your service!" ++ nl ++ nl ++
     lit "Send a claim using `/factcheck <statement>` to verify." ++ nl ++
     lit "Try: `/factcheck The moon is made of cheese`")
    Markdown []).

Definition help_command : handler unit :=
  emit (ReplyText
    (lit "🆘 *Help Guide*" ++ nl ++ nl ++
     lit "/factcheck <claim> - Check a claim" ++ nl ++
     lit "/quicknews - Trending claims" ++ nl ++
     lit "👍👎 Vote on responses" ++ nl ++
     lit "🛡️ Auto-check in groups (admin-only)")
    Markdown []).

Definition usage_hint : pystr := lit "❗ Usage: /factcheck <your claim>".

(** [claim[:50].replace(" ", "_")] *)
Definition claim_id_of (claim : pystr) : pystr :=
  replace ch_space ch_underscore (slice_to 50 claim).

Definition factcheck (u : user) (args : list pystr) : handler unit :=
  match args with
  | [] => emit (ReplyText usage_hint Plain [])
  | _ :: _ =>
    let claim := join [ch_space] args in
    log_claim u claim;;
    response <- query_google_fact_check_api claim;;
    response <- (if falsy response then ai_suggest_fact_check claim
                 else ret (default [] response));;
    let claim_id := claim_id_of claim in
    emit (ReplyText response Markdown (create_vote_buttons claim_id))
  end.

Definition trending : list pystr :=
  [ lit "📰 *Claim:* Earth is flat" ++ nl ++ lit "📝 *Rating:* False" ++ nl ++
    lit "🔗 [More](https://en.wikipedia.org/wiki/Spherical_Earth)";
    lit "📰 *Claim:* COVID vaccines cause autism" ++ nl ++
    lit "📝 *Rating:* False" ++ nl ++ lit "🔗 [CDC](https://www.cdc.gov)";
    lit "📰 *Claim:* Climate change is a hoax" ++ nl ++
    lit "📝 *Rating:* False" ++ nl ++ lit "🔗 [NASA](https://climate.nasa.gov)" ].

Definition quicknews : handler unit :=
  emit (ReplyText
    (lit "🔥 *Trending Fact-Checks:*" ++ nl ++ nl ++ join (nl ++ nl) trending)
    Markdown []).

(** *** auto_fact_check *)

Definition auto_fact_check (u : user) (text : pystr) : handler unit :=
  if negb (bool_decide (user_id u ∈ ADMIN_IDS w)) then ret tt
  else if (length (split_ws text) <? 4)%nat then ret tt
  else
    response <- query_google_fact_check_api text;;
    response <- (if falsy response then ai_suggest_fact_check text
                 else ret (default [] response));;
    emit (ReplyText (lit "📢 Auto Fact-Check:" ++ nl ++ nl ++ response)
            Markdown []).

(** *** vote_handler *)

Definition vote_key (claim_id : pystr) (from_user_id : Z) : pystr :=
  claim_id ++ [ch_underscore] ++ str_of_int from_user_id.

Definition already_voted : pystr := lit "✅ You already voted.".
Definition thanks : pystr := lit "🙌 Thanks for your feedback!".

Definition vote_handler (from_user_id : Z) (data : pystr) : handler unit :=
  emit AnswerCallback;;
  match split_on ch_colon data with
  | [vote_type; claim_id] =>
    let key := vote_key claim_id from_user_id in
    st <- get_state;;
    if bool_decide (is_Some (feedback_store st !! key))
    then emit (ReplyText already_voted Plain [])
    else
      put_state {| claims_table := claims_table st;
                   feedback_store := <[key := vote_type]> (feedback_store st) |};;
      emit (ReplyText thanks Plain [])
  | _ => raise ValueError
  end.

(** *** The updates [main] registers handlers for *)

Inductive update :=
| StartCommand
| HelpCommand
| FactcheckCommand (u : user) (args : list pystr)
| QuicknewsCommand
| GroupText (u : user) (text : pystr)
| CallbackQuery (from_user_id : Z) (data : pystr).

Definition dispatch (upd : update) : handler unit :=
  match upd with
  | StartCommand => start
  | HelpCommand => help_command
  | FactcheckCommand u args => factcheck u args
  | QuicknewsCommand => quicknews
  | GroupText u text => auto_fact_check u text
  | CallbackQuery uid data => vote_handler uid data
  end.

End Handlers.

End Bot.
Import Bot.

(** ** Notions used in the statements *)

Module Notions.

(** Which events reach an outside service. *)
Definition is_db_write (e : event) : bool :=
  match e with DbInsert _ _ _ => true | _ => false end.
Definition is_lookup (e : event) : bool :=
  match e with FactCheckSearch _ => true | _ => false end.
Definition is_advisor_call (e : event) : bool :=
  match e with ChatCompletion _ => true | _ => false end.

(** The texts a run sent to the chat, in order. *)
Definition replies (tr : list event) : list pystr :=
  omap (fun e => match e with ReplyText t _ _ => Some t | _ => None end) tr.

(** The table after [log_claim] stored a row. *)
Definition logged (w : world) (u : user) (claim : pystr) (st : bot_state)
  : bot_state :=
  {| claims_table :=
       claims_table st ++
       [{| row_id := next_row_id (claims_table st);
           row_user_id := user_id u;
           row_username := username u;
           row_claim := claim;
           row_timestamp := current_timestamp w |}];
     feedback_store := feedback_store st |}.

(** The number of whitespace-separated words of a text: the number of
    places where a word starts, that is, a character that is not whitespace
    and stands first or right after whitespace. *)
Fixpoint word_starts (after_space : bool) (s : pystr) : nat :=
  match s with
  | [] => 0
  | c :: s' =>
    if is_space c then word_starts true s'
    else (if after_space then 1 else 0) + word_starts false s'
  end.

Definition count_words (s : pystr) : nat := word_starts true s.

(** The state after a series of presses, each a voter id and a payload. *)
Definition press_all (presses : list (Z * pystr)) (st : bot_state) : bot_state :=
  foldl (fun st p => state_of (vote_handler p.1 p.2 st)) st presses.

(** The bot's life: one update after the other, each in the world of its
    moment; a handler that raised leaves the state it had reached. *)
Definition run_updates (inputs : list (world * update)) (st : bot_state)
  : bot_state :=
  foldl (fun st i => state_of (dispatch i.1 i.2 st)) st inputs.

(** The five-line summary, from the texts of its five fields. *)
Definition summary_text (text source rating pub url : pystr) : pystr :=
  lit "🔎 *Claim:* " ++ text ++ nl ++
  lit "👤 *Source:* " ++ source ++ nl ++
  lit "📝 *Rating:* " ++ rating ++ nl ++
  lit "🏢 *Publisher:* " ++ pub ++ nl ++
  lit "🔗 [Read more](" ++ url ++ lit ")".

(** The text shown for member [k] of an object: the member's value when
    there is one, [placeholder] when it is absent. *)
Definition field (w : world) (ms : list (pystr * json)) (k placeholder : pystr)
  : pystr :=
  py_str w (default (JStr placeholder) (member k ms)).

(** The members of the first review of a claim object: none when the claim
    has no ["claimReview"]; undefined when it is not a list starting with an
    object. *)
Definition first_review (claim : list (pystr * json))
  : option (list (pystr * json)) :=
  match member (lit "claimReview") claim with
  | None => Some []
  | Some (JArr (JObj review :: _)) => Some review
  | Some _ => None
  end.

(** The members of the publisher of a review, likewise. *)
Definition publisher_of (review : list (pystr * json))
  : option (list (pystr * json)) :=
  match member (lit "publisher") review with
  | None => Some []
  | Some (JObj publisher) => Some publisher
  | Some _ => None
  end.

(** A response holds no claims when its ["claims"] member is absent, or
    null or empty. *)
Definition no_claims (response : list (pystr * json)) : bool :=
  negb (truthy (default JNull (member (lit "claims") response))).

End Notions.
Import Notions.

(** ** Concrete worlds and states for the examples *)

Module Scenario.

Definition empty_state : bot_state :=
  {| claims_table := []; feedback_store := ∅ |}.

(** The search finds nothing, the completion API answers [answer]. *)
Definition completion_answer (answer : pystr) : json :=
  JObj [(lit "choices",
         JArr [JObj [(lit "message", JObj [(lit "content", JStr answer)])]])].

Definition calm : world :=
  {| ADMIN_IDS := [7; 8];
     fact_check_search := fun _ => Return (JObj []);
     chat_completion := fun _ => Return (completion_answer (lit "False."));
     db_commit := Return tt;
     current_timestamp := 1700000000%N;
     repr_of := fun _ => lit "[...]" |}.

(** As [calm], with the completion API out of quota. *)
Definition no_quota : world :=
  {| ADMIN_IDS := ADMIN_IDS calm;
     fact_check_search := fact_check_search calm;
     chat_completion := fun _ => Raise OpenAIError;
     db_commit := Return tt;
     current_timestamp := current_timestamp calm;
     repr_of := repr_of calm |}.

(** As [calm], with [claims.db] not writable. *)
Definition disk_full : world :=
  {| ADMIN_IDS := ADMIN_IDS calm;
     fact_check_search := fact_check_search calm;
     chat_completion := chat_completion calm;
     db_commit := Raise OperationalError;
     current_timestamp := current_timestamp calm;
     repr_of := repr_of calm |}.

Definition alice : user := {| user_id := 42; username := Some (lit "alice") |}.
Definition admin : user := {| user_id := 7; username := Some (lit "root") |}.

End Scenario.

(** ** Start-up *)

Module Startup.

Definition ch_comma : N := 44%N.       (* "," *)

(** The comprehension [[int(x) for x in pieces if x]]: the empty pieces are
    skipped, the others read in order, and the first that [int] refuses ends
    the whole with its exception.  [py_int] is the interpreter's [int] on a
    [str]. *)
Fixpoint admin_ids_of (py_int : pystr -> result Z) (pieces : list pystr)
  : result (list Z) :=
  match pieces with
  | [] => Return []
  | [] :: rest => admin_ids_of py_int rest
  | (_ :: _) as x :: rest =>
    result_bind (py_int x) (fun n =>
    result_bind (admin_ids_of py_int rest) (fun ns =>
    Return (n :: ns)))
  end.

(** Line 26: [ADMIN_IDS], from the value of the environment variable
    ([None] when it is not set, which [os.getenv] turns into the empty
    string). *)
Definition load_admin_ids (py_int : pystr -> result Z) (env : option pystr)
  : result (list Z) :=
  admin_ids_of py_int (split_on ch_comma (default [] env)).

End Startup.
Import Startup.

(** ** Further notions used in the statements *)

Module Observations.

(** What a row says, apart from the id and the time the table gave it. *)
Definition row_content (r : claim_row) : Z * option pystr * pystr :=
  (row_user_id r, row_username r, row_claim r).

(** What an update adds to the claim store: the sender and the joined words
    of a [/factcheck] with arguments whose write goes through, nothing
    otherwise. *)
Definition logged_claim_of (i : world * update)
  : option (Z * option pystr * pystr) :=
  match i.2 with
  | FactcheckCommand u (a :: args) =>
    match db_commit i.1 with
    | Return _ => Some (user_id u, username u, join [ch_space] (a :: args))
    | Raise _ => None
    end
  | _ => None
  end.

(** A word: not empty, no whitespace in it. *)
Definition is_word (p : pystr) : bool :=
  match p with
  | [] => false
  | _ :: _ => forallb (fun c => negb (is_space c)) p
  end.

(** The gate of [auto_fact_check]. *)
Definition qualifies (w : world) (u : user) (text : pystr) : bool :=
  bool_decide (user_id u ∈ ADMIN_IDS w) && (4 <=? count_words text)%nat.

(** Whether an update is a group message that the gate turns away. *)
Definition turned_away (w : world) (upd : update) : bool :=
  match upd with
  | GroupText u text => negb (qualifies w u text)
  | _ => false
  end.

(** What the completion API answered, as far as the advisor can use it:
    the ["content"] of the ["message"] of the first of the ["choices"] of a
    response object; nothing when the request raised or the response has
    another shape. *)
Definition answer_of (reply : result json) : option json :=
  match reply with
  | Return (JObj res) =>
    match member (lit "choices") res with
    | Some (JArr (JObj choice :: _)) =>
      match member (lit "message") choice with
      | Some (JObj message) => member (lit "content") message
      | _ => None
      end
    | _ => None
    end
  | _ => None
  end.

End Observations.
Import Observations.

(** ** A reader of decimal numerals, for the examples *)

Module Numerals.

Fixpoint read_digits (s : pystr) : option Decimal.uint :=
  match s with
  | [] => Some Nil
  | c :: s' =>
    match read_digits s' with
    | None => None
    | Some u =>
      if (c =? 48)%N then Some (D0 u) else if (c =? 49)%N then Some (D1 u)
      else if (c =? 50)%N then Some (D2 u) else if (c =? 51)%N then Some (D3 u)
      else if (c =? 52)%N then Some (D4 u) else if (c =? 53)%N then Some (D5 u)
      else if (c =? 54)%N then Some (D6 u) else if (c =? 55)%N then Some (D7 u)
      else if (c =? 56)%N then Some (D8 u) else if (c =? 57)%N then Some (D9 u)
      else None
    end
  end.

(** [int] on plain decimal numerals; anything else is refused. *)
Definition read_int (s : pystr) : result Z :=
  match s with
  | [] => Raise ValueError
  | c :: s' =>
    if (c =? ch_minus)%N
    then match s' with
         | [] => Raise ValueError
         | _ => match read_digits s' with
                | Some u => Return (Z.of_int (Decimal.Neg u))
                | None => Raise ValueError
                end
         end
    else match read_digits s with
         | Some u => Return (Z.of_int (Decimal.Pos u))
         | None => Raise ValueError
         end
  end.

End Numerals.

(** * Properties *)

(** ** Facts about the string operations *)

(** The operations on a few inputs, with the values Python gives. *)
Example lit_code_points :
  lit "❗ ok" = [0x2757; 32; 111; 107]%N /\
  lit "🤖" = [0x1F916]%N /\
  lit "⚠️" = [0x26A0; 0xFE0F]%N.
Proof. repeat split. Qed.

Example split_examples :
  split_on ch_colon (lit "vote_yes:Earth_is_flat")
    = [lit "vote_yes"; lit "Earth_is_flat"] /\
  split_on ch_colon (lit "vote_yes") = [lit "vote_yes"] /\
  split_on ch_colon (lit "a::b") = [lit "a"; []; lit "b"] /\
  split_ws (lit "  Earth is   flat ") = [lit "Earth"; lit "is"; lit "flat"] /\
  split_ws (lit "   ") = [].
Proof. repeat split. Qed.

Example str_of_int_examples :
  str_of_int 0 = lit "0" /\ str_of_int 42 = lit "42" /\
  str_of_int (-1001234567890) = lit "-1001234567890".
Proof. repeat split. Qed.

Example claim_id_examples :
  claim_id_of (lit "Earth is flat") = lit "Earth_is_flat" /\
  claim_id_of
    (lit "The quick brown fox jumps over the lazy dog near the river bank")
    = lit "The_quick_brown_fox_jumps_over_the_lazy_dog_near_t" /\
  vote_key (lit "Earth_is_flat") 42 = lit "Earth_is_flat_42".
Proof. repeat split. Qed.

Section SplitOn.

Variable sep : N.

Lemma split_on_aux_no_sep (cur s : pystr) :
  sep ∉ s -> split_on_aux sep cur s = [reverse cur ++ s].
Proof.
  revert cur. induction s as [|c s IH]; intros cur Hs; simpl.
  - by rewrite app_nil_r.
  - apply not_elem_of_cons in Hs as [Hc Hs].
    destruct (N.eqb_spec c sep) as [->|_]; [done|].
    rewrite IH by done. by rewrite reverse_cons, <- app_assoc.
Qed.

Lemma split_on_aux_cut (cur s t : pystr) :
  sep ∉ s ->
  split_on_aux sep cur (s ++ sep :: t) = (reverse cur ++ s) :: split_on_aux sep [] t.
Proof.
  revert cur. induction s as [|c s IH]; intros cur Hs; simpl.
  - by rewrite N.eqb_refl, app_nil_r.
  - apply not_elem_of_cons in Hs as [Hc Hs].
    destruct (N.eqb_spec c sep) as [->|_]; [done|].
    rewrite IH by done. by rewrite reverse_cons, <- app_assoc.
Qed.

(** A payload with exactly one separator splits into its two sides. *)
Lemma split_on_two (a b : pystr) :
  sep ∉ a -> sep ∉ b -> split_on sep (a ++ sep :: b) = [a; b].
Proof.
  intros Ha Hb. unfold split_on.
  rewrite split_on_aux_cut by done. by rewrite split_on_aux_no_sep.
Qed.

(** The pieces of a split never contain the separator. *)
Lemma split_on_aux_pieces (cur s p : pystr) :
  sep ∉ cur -> p ∈ split_on_aux sep cur s -> sep ∉ p.
Proof.
  revert cur. induction s as [|c s IH]; intros cur Hcur; simpl.
  - intros ->%list_elem_of_singleton. by rewrite elem_of_reverse.
  - destruct (N.eqb_spec c sep) as [->|Hne].
    + intros [->|Hp]%elem_of_cons.
      * by rewrite elem_of_reverse.
      * apply (IH []); [apply not_elem_of_nil | done].
    + apply IH. apply not_elem_of_cons. split; [congruence | done].
Qed.

Lemma split_on_pieces (s p : pystr) : p ∈ split_on sep s -> sep ∉ p.
Proof. apply split_on_aux_pieces, not_elem_of_nil. Qed.

(** A split is never empty. *)
Lemma split_on_aux_nonempty (cur s : pystr) : split_on_aux sep cur s <> [].
Proof.
  revert cur. induction s as [|c s IH]; intros cur; simpl; [done|].
  destruct (c =? sep)%N; [done | apply IH].
Qed.

(** Joining the pieces with the separator gives the string back. *)
Lemma split_on_aux_join (cur s : pystr) :
  join [sep] (split_on_aux sep cur s) = reverse cur ++ s.
Proof.
  revert cur. induction s as [|c s IH]; intros cur.
  - simpl. by rewrite app_nil_r.
  - simpl. destruct (N.eqb_spec c sep) as [->|_].
    + specialize (IH []). pose proof (split_on_aux_nonempty [] s) as Hne.
      destruct (split_on_aux sep [] s) as [|p ps]; [done|].
      change (join [sep] (reverse cur :: p :: ps))
        with (reverse cur ++ [sep] ++ join [sep] (p :: ps)).
      by rewrite IH.
    + rewrite IH. by rewrite reverse_cons, <- app_assoc.
Qed.

(** There is one more piece than there are separators. *)
Lemma split_on_aux_length (cur s : pystr) :
  length (split_on_aux sep cur s) = S (length (filter (fun c => c = sep) s)).
Proof.
  revert cur. induction s as [|c s IH]; intros cur; simpl; [done|].
  destruct (N.eqb_spec c sep) as [->|Hne].
  - rewrite filter_cons_True by done. simpl. by rewrite IH.
  - rewrite filter_cons_False by done. apply IH.
Qed.

End SplitOn.

Section DecimalText.

(** Every character of [digits u] is one of ["0".."9"]. *)
Lemma digits_range (u : Decimal.uint) (c : N) :
  c ∈ digits u -> (48 <= c <= 57)%N.
Proof.
  induction u; simpl; intros Hc;
    try (by apply not_elem_of_nil in Hc);
    apply elem_of_cons in Hc as [->|Hc]; auto; lia.
Qed.

Lemma digits_inj (u v : Decimal.uint) : digits u = digits v -> u = v.
Proof.
  revert v. induction u; intros v; destruct v; simpl; intros H;
    try discriminate; try reflexivity;
    injection H as H; f_equal; auto.
Qed.

Lemma str_of_int_chars (n : Z) (c : N) :
  c ∈ str_of_int n -> c = ch_minus \/ (48 <= c <= 57)%N.
Proof.
  unfold str_of_int. destruct (Z.to_int n) as [u|u].
  - intros Hc. right. by eapply digits_range.
  - intros [->|Hc]%elem_of_cons; [by left | right; by eapply digits_range].
Qed.

Lemma str_of_int_no_underscore (n : Z) : ch_underscore ∉ str_of_int n.
Proof.
  intros [H|H]%str_of_int_chars; [discriminate H | unfold ch_underscore in H; lia].
Qed.

(** [str] is injective on integers. *)
Lemma str_of_int_inj (m n : Z) : str_of_int m = str_of_int n -> m = n.
Proof.
  unfold str_of_int. intros H.
  rewrite <- (DecimalZ.of_to m), <- (DecimalZ.of_to n).
  destruct (Z.to_int m) as [u|u], (Z.to_int n) as [v|v].
  - by rewrite (digits_inj _ _ H).
  - exfalso. assert (Hc : ch_minus ∈ digits u) by (rewrite H; left).
    apply digits_range in Hc. unfold ch_minus in Hc. lia.
  - exfalso. assert (Hc : ch_minus ∈ digits v) by (rewrite <- H; left).
    apply digits_range in Hc. unfold ch_minus in Hc. lia.
  - injection H as H. by rewrite (digits_inj _ _ H).
Qed.

End DecimalText.

(** Two strings cut at a separator that their right parts do not contain
    agree only when both parts agree. *)
Lemma app_sep_inj (sep : N) (a b c d : pystr) :
  sep ∉ c -> sep ∉ d -> a ++ sep :: c = b ++ sep :: d -> a = b /\ c = d.
Proof.
  intros Hc Hd. revert b.
  induction a as [|x a IH]; intros [|y b]; simpl; intros H.
  - injection H as H. done.
  - injection H as <- H. exfalso. apply Hc. rewrite H.
    apply elem_of_app. right. left.
  - injection H as -> H. exfalso. apply Hd. rewrite <- H.
    apply elem_of_app. right. left.
  - injection H as -> H. destruct (IH _ H) as [-> ->]. done.
Qed.

(** The key the vote handler builds identifies the (claim id, voter) pair. *)
Lemma vote_key_inj (c1 c2 : pystr) (u1 u2 : Z) :
  vote_key c1 u1 = vote_key c2 u2 -> c1 = c2 /\ u1 = u2.
Proof.
  unfold vote_key. simpl. intros H.
  apply app_sep_inj in H as [-> H]; auto using str_of_int_no_underscore.
  split; [done | by apply str_of_int_inj].
Qed.

(** ** Running handlers *)

(** Unfolding of the monad's operations, then of one handler body. *)
Ltac unfold_monad :=
  unfold bind, ret, emit, lift, raise, get_state, put_state,
    trace_of, state_of, outcome_of in *.

Ltac run_handler :=
  unfold dispatch, factcheck, auto_fact_check, vote_handler, log_claim,
    query_google_fact_check_api, ai_suggest_fact_check,
    start, help_command, quicknews in *;
  unfold_monad; simpl in *.

(** The first step of [/factcheck <words>] is the write to the claim store:
    it either ends the run or leaves the logged state to the rest. *)
Lemma log_claim_run (w : world) (u : user) (claim : pystr) (st : bot_state) :
  log_claim w u claim st =
    match db_commit w with
    | Return _ => ([DbInsert (user_id u) (username u) claim],
                   logged w u claim st, Return tt)
    | Raise e => ([DbInsert (user_id u) (username u) claim], st, Raise e)
    end.
Proof. run_handler. by destruct (db_commit w). Qed.

(** The advisor always returns a text, and asks the completion API once. *)
Lemma ai_suggest_fact_check_run (w : world) (claim : pystr) (st : bot_state) :
  ai_suggest_fact_check w claim st =
    match completion_content w claim with
    | Return content =>
        ([ChatCompletion claim], st,
         Return (lit "🤖 *AI Suggestion:*" ++ nl ++ nl ++ py_str w content))
    | Raise _ =>
        ([ChatCompletion claim; LogError], st, Return unavailable_message)
    end.
Proof. run_handler. by destruct (completion_content w claim). Qed.

Lemma query_run (w : world) (claim : pystr) (st : bot_state) :
  query_google_fact_check_api w claim st =
    ([FactCheckSearch claim], st,
     result_bind (fact_check_search w claim) (summarize w)).
Proof. run_handler. by destruct (fact_check_search w claim). Qed.

(** The whole of [/factcheck <words>], case by case of what the outside
    answers. *)
Lemma factcheck_run
    (w : world) (u : user) (a : pystr) (args : list pystr) (st : bot_state) :
  let claim := join [ch_space] (a :: args) in
  let write := DbInsert (user_id u) (username u) claim in
  let markup := create_vote_buttons (claim_id_of claim) in
  factcheck w u (a :: args) st =
    match db_commit w with
    | Raise e => ([write], st, Raise e)
    | Return _ =>
      match result_bind (fact_check_search w claim) (summarize w) with
      | Raise e =>
          ([write; FactCheckSearch claim], logged w u claim st, Raise e)
      | Return response =>
        if falsy response then
          match completion_content w claim with
          | Return content =>
              ([write; FactCheckSearch claim; ChatCompletion claim;
                ReplyText (lit "🤖 *AI Suggestion:*" ++ nl ++ nl
                           ++ py_str w content) Markdown markup],
               logged w u claim st, Return tt)
          | Raise _ =>
              ([write; FactCheckSearch claim; ChatCompletion claim; LogError;
                ReplyText unavailable_message Markdown markup],
               logged w u claim st, Return tt)
          end
        else
          ([write; FactCheckSearch claim;
            ReplyText (default [] response) Markdown markup],
           logged w u claim st, Return tt)
      end
    end.
Proof.
  intros claim write markup. unfold factcheck. fold claim.
  unfold bind at 1. rewrite log_claim_run.
  destruct (db_commit w) as [[]|e0]; [|reflexivity].
  unfold bind at 1. rewrite query_run.
  destruct (result_bind _ _) as [r|e1]; [|reflexivity].
  unfold bind at 1. destruct (falsy r); [|reflexivity].
  rewrite ai_suggest_fact_check_run.
  by destruct (completion_content w claim).
Qed.

(** The whole of [auto_fact_check] for an admin's message of four words or
    more. *)
Lemma auto_fact_check_run
    (w : world) (u : user) (text : pystr) (st : bot_state) :
  auto_fact_check w u text st =
    if negb (bool_decide (user_id u ∈ ADMIN_IDS w)) then ([], st, Return tt)
    else if (length (split_ws text) <? 4)%nat then ([], st, Return tt)
    else
      match result_bind (fact_check_search w text) (summarize w) with
      | Raise e => ([FactCheckSearch text], st, Raise e)
      | Return response =>
        if falsy response then
          match completion_content w text with
          | Return content =>
              ([FactCheckSearch text; ChatCompletion text;
                ReplyText (lit "📢 Auto Fact-Check:" ++ nl ++ nl ++
                           (lit "🤖 *AI Suggestion:*" ++ nl ++ nl
                            ++ py_str w content)) Markdown []],
               st, Return tt)
          | Raise _ =>
              ([FactCheckSearch text; ChatCompletion text; LogError;
                ReplyText (lit "📢 Auto Fact-Check:" ++ nl ++ nl ++
                           unavailable_message) Markdown []],
               st, Return tt)
          end
        else
          ([FactCheckSearch text;
            ReplyText (lit "📢 Auto Fact-Check:" ++ nl ++ nl ++
                       default [] response) Markdown []],
           st, Return tt)
      end.
Proof.
  unfold auto_fact_check.
  destruct (negb _); [reflexivity|].
  destruct (_ <? _)%nat; [reflexivity|].
  unfold bind at 1. rewrite query_run.
  destruct (result_bind _ _) as [r|e1]; [|reflexivity].
  unfold bind at 1. destruct (falsy r); [|reflexivity].
  rewrite ai_suggest_fact_check_run.
  by destruct (completion_content w text).
Qed.

(** ** The command handlers *)

(** C8: [/factcheck] with no argument replies with the usage hint and does
    nothing else: no write to the claim store, no fact-check lookup, no call
    of the advisor, and the state is left as it was. *)
Theorem factcheck_no_arguments (w : world) (u : user) (st : bot_state) :
  factcheck w u [] st = ([ReplyText usage_hint Plain []], st, Return tt) /\
  replies (trace_of (factcheck w u [] st)) = [usage_hint] /\
  filter is_db_write (trace_of (factcheck w u [] st)) = [] /\
  filter is_lookup (trace_of (factcheck w u [] st)) = [] /\
  filter is_advisor_call (trace_of (factcheck w u [] st)) = [].
Proof. repeat split. Qed.

(** C9: [/quicknews] sends one reply whose text is a constant made of a
    header and the three pre-written trending items; the text is the same
    for every world and every state, and no fact-check or completion request
    is made. *)
Theorem quicknews_static (w1 w2 : world) (st1 st2 : bot_state) :
  trace_of (dispatch w1 QuicknewsCommand st1)
    = trace_of (dispatch w2 QuicknewsCommand st2) /\
  (exists item1 item2 item3,
     trending = [item1; item2; item3] /\
     replies (trace_of (dispatch w1 QuicknewsCommand st1)) =
       [lit "🔥 *Trending Fact-Checks:*" ++ nl ++ nl ++
        item1 ++ nl ++ nl ++ item2 ++ nl ++ nl ++ item3]) /\
  length (trace_of (dispatch w1 QuicknewsCommand st1)) = 1%nat /\
  filter is_lookup (trace_of (dispatch w1 QuicknewsCommand st1)) = [] /\
  filter is_advisor_call (trace_of (dispatch w1 QuicknewsCommand st1)) = [] /\
  state_of (dispatch w1 QuicknewsCommand st1) = st1.
Proof.
  split; [reflexivity|]. split; [|repeat split].
  unfold trending. eexists _, _, _. split; [reflexivity|].
  cbn [dispatch quicknews emit trace_of replies omap fst list_omap].
  unfold quicknews, emit, trending. simpl. reflexivity.
Qed.

(** C6: in [/factcheck <words>] the write to the claim store comes first,
    before any lookup: the lookup, when it happens, is the second event and
    finds the row already stored.  When the write fails, its exception ends
    the run: it is not retried, nothing is stored, and no lookup, advisor
    call or reply follows. *)
Theorem factcheck_logs_before_lookup
    (w : world) (u : user) (a : pystr) (args : list pystr) (st : bot_state) :
  let claim := join [ch_space] (a :: args) in
  let run := factcheck w u (a :: args) st in
  (exists rest,
     trace_of run = DbInsert (user_id u) (username u) claim :: rest /\
     filter is_db_write rest = []) /\
  (db_commit w = Return tt ->
   (exists rest,
      trace_of run = DbInsert (user_id u) (username u) claim
                     :: FactCheckSearch claim :: rest /\
      filter is_lookup rest = []) /\
   state_of run = logged w u claim st) /\
  (forall e, db_commit w = Raise e ->
     run = ([DbInsert (user_id u) (username u) claim], st, Raise e)).
Proof.
  intros claim run. subst run claim. rewrite factcheck_run.
  split; [|split].
  - destruct (db_commit w) as [[]|e0]; [|by eexists].
    destruct (result_bind _ _) as [r|e1]; [|by eexists].
    destruct (falsy r); [|by eexists].
    destruct (completion_content _ _); by eexists.
  - intros ->.
    destruct (result_bind _ _) as [r|e1]; [|by split; [eexists|]].
    destruct (falsy r); [|by split; [eexists|]].
    destruct (completion_content _ _); by split; [eexists|].
  - by intros e ->.
Qed.

Lemma factcheck_logs_before_lookup_witness :
  Scenario.disk_full.(db_commit) = Raise OperationalError /\
  factcheck Scenario.disk_full Scenario.alice
      [lit "Earth"; lit "is"; lit "flat"] Scenario.empty_state
    = ([DbInsert 42 (Some (lit "alice")) (lit "Earth is flat")],
       Scenario.empty_state, Raise OperationalError).
Proof.
  split; [reflexivity|].
  apply (factcheck_logs_before_lookup Scenario.disk_full Scenario.alice
           (lit "Earth") [lit "is"; lit "flat"] Scenario.empty_state).
  reflexivity.
Defined.

(** ** The fallback advisor *)

(** The advisor asks the completion API once and always returns a text: the
    API's answer under a fixed heading, or the fixed unavailability message
    when the request or the reading of its response raised. *)
Lemma advisor_total (w : world) (claim : pystr) (st : bot_state) :
  exists advice,
    outcome_of (ai_suggest_fact_check w claim st) = Return advice /\
    state_of (ai_suggest_fact_check w claim st) = st /\
    filter is_advisor_call (trace_of (ai_suggest_fact_check w claim st))
      = [ChatCompletion claim] /\
    (forall e, completion_content w claim = Raise e ->
       advice = unavailable_message) /\
    (forall content, completion_content w claim = Return content ->
       advice = lit "🤖 *AI Suggestion:*" ++ nl ++ nl ++ py_str w content).
Proof.
  rewrite ai_suggest_fact_check_run.
  destruct (completion_content w claim) as [c|e]; eexists;
    repeat split; try done; congruence.
Qed.

(** The [try] body of the advisor yields a content exactly when the world's
    answer holds one; a request that raised, and a response of any other
    shape, make it raise. *)
Lemma completion_content_answer (w : world) (claim : pystr) :
  match answer_of (chat_completion w claim) with
  | Some content => completion_content w claim = Return content
  | None => exists e, completion_content w claim = Raise e
  end.
Proof.
  unfold completion_content, answer_of.
  destruct (chat_completion w claim) as [res|e]; cbn [result_bind];
    [|by eexists].
  destruct res as [| | | | |res]; cbn [py_item result_bind]; try by eexists.
  destruct (member (lit "choices") res) as [choices|]; cbn [result_bind];
    [|by eexists].
  destruct choices as [| | |[|c s]|[|choice more]|ms];
    cbn [py_first result_bind py_item]; try by eexists.
  destruct choice as [| | | | |choice]; cbn [py_item result_bind];
    try by eexists.
  destruct (member (lit "message") choice) as [message|]; cbn [result_bind];
    [|by eexists].
  destruct message as [| | | | |message]; cbn [py_item]; try by eexists.
  destruct (member (lit "content") message); [done | by eexists].
Qed.

(** C5: in [/factcheck], when the lookup returns an empty result, the
    advisor is invoked exactly once and the text sent is exactly what the
    advisor returned.  When the completion request raises, whatever the
    exception, nothing propagates: the advisor returns the fixed
    unavailability message, that message is what is sent, and the handler
    returns; the same holds for a response in which no content can be read.
    When the response holds a content, the text is that content under the
    "AI Suggestion" heading. *)
Theorem fallback_invoked_once
    (w : world) (u : user) (a : pystr) (args : list pystr) (st : bot_state) :
  let claim := join [ch_space] (a :: args) in
  let run := factcheck w u (a :: args) st in
  db_commit w = Return tt ->
  outcome_of (query_google_fact_check_api w claim (logged w u claim st))
    = Return None ->
  exists advice,
    outcome_of (ai_suggest_fact_check w claim (logged w u claim st))
      = Return advice /\
    filter is_advisor_call (trace_of run) = [ChatCompletion claim] /\
    replies (trace_of run) = [advice] /\
    outcome_of run = Return tt /\
    (forall e, chat_completion w claim = Raise e ->
       advice = unavailable_message /\
       replies (trace_of run) = [unavailable_message] /\
       LogError ∈ trace_of run) /\
    (answer_of (chat_completion w claim) = None ->
       advice = unavailable_message /\
       replies (trace_of run) = [unavailable_message]) /\
    (forall content, answer_of (chat_completion w claim) = Some content ->
       advice = lit "🤖 *AI Suggestion:*" ++ nl ++ nl ++ py_str w content).
Proof.
  intros claim run Hdb Hq. subst run.
  rewrite query_run in Hq. unfold outcome_of in Hq. simpl in Hq.
  rewrite factcheck_run. fold claim. rewrite Hdb, Hq. simpl.
  rewrite ai_suggest_fact_check_run.
  pose proof (completion_content_answer w claim) as Hanswer.
  destruct (answer_of (chat_completion w claim)) as [content|] eqn:Hworld.
  - rewrite Hanswer. eexists.
    do 4 (split; [reflexivity|]). split; [|split].
    + intros e He. by rewrite He in Hworld.
    + done.
    + by intros ? [= <-].
  - destruct Hanswer as [e0 ->]. eexists.
    do 4 (split; [reflexivity|]). split; [|split].
    + intros e _. split; [done|]. split; [done|].
      unfold trace_of. cbn [fst].
      do 3 apply list_elem_of_further. apply list_elem_of_here.
    + done.
    + done.
Qed.

Lemma fallback_invoked_once_witness :
  chat_completion Scenario.no_quota (lit "Earth is flat") = Raise OpenAIError /\
  filter is_advisor_call
    (trace_of (factcheck Scenario.no_quota Scenario.alice
                 [lit "Earth"; lit "is"; lit "flat"] Scenario.empty_state))
    = [ChatCompletion (lit "Earth is flat")] /\
  replies
    (trace_of (factcheck Scenario.no_quota Scenario.alice
                 [lit "Earth"; lit "is"; lit "flat"] Scenario.empty_state))
    = [unavailable_message] /\
  LogError ∈
    trace_of (factcheck Scenario.no_quota Scenario.alice
                [lit "Earth"; lit "is"; lit "flat"] Scenario.empty_state) /\
  outcome_of (factcheck Scenario.no_quota Scenario.alice
                [lit "Earth"; lit "is"; lit "flat"] Scenario.empty_state)
    = Return tt.
Proof.
  destruct (fallback_invoked_once Scenario.no_quota Scenario.alice
              (lit "Earth") [lit "is"; lit "flat"] Scenario.empty_state
              eq_refl eq_refl)
    as (advice & _ & Hcalls & _ & Hreturns & Hraised & _).
  destruct (Hraised OpenAIError eq_refl) as (_ & Hsent & Hlogged).
  repeat split; assumption.
Defined.

(** The same on the automatic path, where the advisor's text is sent under
    the "Auto Fact-Check" heading. *)
Lemma auto_fallback_invoked_once
    (w : world) (u : user) (text : pystr) (st : bot_state) :
  user_id u ∈ ADMIN_IDS w ->
  (4 <= length (split_ws text))%nat ->
  outcome_of (query_google_fact_check_api w text st) = Return None ->
  exists advice,
    outcome_of (ai_suggest_fact_check w text st) = Return advice /\
    filter is_advisor_call (trace_of (auto_fact_check w u text st))
      = [ChatCompletion text] /\
    replies (trace_of (auto_fact_check w u text st))
      = [lit "📢 Auto Fact-Check:" ++ nl ++ nl ++ advice] /\
    outcome_of (auto_fact_check w u text st) = Return tt.
Proof.
  intros Hadmin Hwords Hq.
  rewrite query_run in Hq. unfold outcome_of in Hq. simpl in Hq.
  rewrite auto_fact_check_run, Hq.
  rewrite bool_decide_eq_true_2 by done.
  destruct (Nat.ltb_spec (length (split_ws text)) 4); [lia|]. simpl.
  rewrite ai_suggest_fact_check_run.
  destruct (completion_content w text) as [c|e]; eexists; repeat split; done.
Qed.

(** ** The automatic check of group messages *)

Lemma split_ws_aux_length (cur s : pystr) :
  length (split_ws_aux cur s) =
    match cur with
    | [] => word_starts true s
    | _ :: _ => S (word_starts false s)
    end.
Proof.
  revert cur. induction s as [|c s IH]; intros cur; simpl.
  - by destruct cur.
  - destruct (is_space c).
    + destruct cur; simpl; by rewrite (IH []).
    + rewrite (IH (c :: cur)). by destruct cur.
Qed.

(** [len(text.split())] counts the words. *)
Lemma split_ws_length (s : pystr) : length (split_ws s) = count_words s.
Proof. apply (split_ws_aux_length [] s). Qed.

(** The words [split] returns are not empty and hold no whitespace. *)
Lemma split_ws_aux_words (cur s p : pystr) :
  Forall (fun c => is_space c = false) cur ->
  p ∈ split_ws_aux cur s ->
  p <> [] /\ Forall (fun c => is_space c = false) p.
Proof.
  revert cur. induction s as [|c s IH]; intros cur Hcur; simpl.
  - destruct cur as [|x cur]; [by intros ?%not_elem_of_nil|].
    intros ->%list_elem_of_singleton. split.
    + rewrite reverse_cons. by destruct (reverse cur).
    + by apply Forall_reverse.
  - destruct (is_space c) eqn:Hc.
    + destruct cur as [|x cur]; [by apply IH|].
      intros [->|Hp]%elem_of_cons; [|by apply (IH [])].
      split; [rewrite reverse_cons; by destruct (reverse cur)
             | by apply Forall_reverse].
    + apply IH. by constructor.
Qed.

(** C7: a group message starts the automatic check (the lookup, the advisor
    when the lookup is empty, the reply under the "Auto Fact-Check" heading)
    exactly when its sender is in the admin set and it has at least four
    whitespace-separated words; any other message produces no action at
    all. *)
Theorem auto_fact_check_trigger
    (w : world) (u : user) (text : pystr) (st : bot_state) :
  let run := auto_fact_check w u text st in
  let qualifies := user_id u ∈ ADMIN_IDS w /\ (4 <= count_words text)%nat in
  ((exists rest, trace_of run = FactCheckSearch text :: rest) <-> qualifies) /\
  (~ qualifies -> run = ([], st, Return tt)) /\
  (qualifies ->
   forall response,
     outcome_of (query_google_fact_check_api w text st) = Return response ->
     exists body,
       replies (trace_of run) = [lit "📢 Auto Fact-Check:" ++ nl ++ nl ++ body] /\
       filter is_advisor_call (trace_of run)
         = (if falsy response then [ChatCompletion text] else []) /\
       outcome_of run = Return tt).
Proof.
  intros run qualifies. subst run qualifies.
  rewrite <- split_ws_length, auto_fact_check_run, query_run.
  unfold outcome_of, trace_of. simpl.
  destruct (decide (user_id u ∈ ADMIN_IDS w)) as [Hadm|Hadm].
  2:{ rewrite bool_decide_eq_false_2 by done. simpl.
      split; [|split]; [split| |]; try tauto. by intros [? ?]. }
  rewrite bool_decide_eq_true_2 by done. simpl.
  destruct (Nat.ltb_spec (length (split_ws text)) 4) as [Hlt|Hge].
  { split; [|split]; [split| |]; try (intros [? ?]; lia); try done.
    by intros [? ?]. }
  split; [|split].
  - split; [done|]. intros _.
    destruct (result_bind _ _) as [r|e]; [|by eexists].
    destruct (falsy r); [|by eexists].
    destruct (completion_content w text); by eexists.
  - tauto.
  - intros _ response ->.
    destruct (falsy response); [|by eexists].
    destruct (completion_content w text); by eexists.
Qed.

Lemma auto_fact_check_trigger_witness :
  auto_fact_check Scenario.calm Scenario.alice
      (lit "Earth is really flat") Scenario.empty_state
    = ([], Scenario.empty_state, Return tt) /\
  exists body,
    replies (trace_of (auto_fact_check Scenario.calm Scenario.admin
                         (lit "Earth is really flat") Scenario.empty_state))
      = [lit "📢 Auto Fact-Check:" ++ nl ++ nl ++ body] /\
    filter is_advisor_call
      (trace_of (auto_fact_check Scenario.calm Scenario.admin
                   (lit "Earth is really flat") Scenario.empty_state))
      = [ChatCompletion (lit "Earth is really flat")] /\
    outcome_of (auto_fact_check Scenario.calm Scenario.admin
                  (lit "Earth is really flat") Scenario.empty_state)
      = Return tt.
Proof.
  split.
  - apply (auto_fact_check_trigger Scenario.calm Scenario.alice
             (lit "Earth is really flat") Scenario.empty_state).
    intros [Hadmin _]. vm_compute in Hadmin.
    repeat (apply elem_of_cons in Hadmin as [Hadmin|Hadmin]; [discriminate|]).
    by apply not_elem_of_nil in Hadmin.
  - destruct (auto_fact_check_trigger Scenario.calm Scenario.admin
                (lit "Earth is really flat") Scenario.empty_state)
      as (_ & _ & Hreply).
    apply (Hreply (conj (list_elem_of_here 7 [8]) (le_n 4)) None).
    reflexivity.
Defined.

(** ** The vote handler *)

(** The whole of [vote_handler], case by case of the payload and the store. *)
Lemma vote_handler_run (from_user_id : Z) (data : pystr) (st : bot_state) :
  vote_handler from_user_id data st =
    match split_on ch_colon data with
    | [vote_type; claim_id] =>
      let key := vote_key claim_id from_user_id in
      if bool_decide (is_Some (feedback_store st !! key))
      then ([AnswerCallback; ReplyText already_voted Plain []], st, Return tt)
      else ([AnswerCallback; ReplyText thanks Plain []],
            {| claims_table := claims_table st;
               feedback_store := <[key := vote_type]> (feedback_store st) |},
            Return tt)
    | _ => ([AnswerCallback], st, Raise ValueError)
    end.
Proof.
  unfold vote_handler. unfold_monad. simpl.
  destruct (split_on ch_colon data) as [|p1 [|p2 [|p3 ps]]]; try reflexivity.
  by destruct (bool_decide _).
Qed.

(** The unpacking of [query.data.split(":")] into two names succeeds exactly
    on a payload with one colon. *)
Lemma vote_handler_raises_iff (from_user_id : Z) (data : pystr) (st : bot_state) :
  outcome_of (vote_handler from_user_id data st) = Raise ValueError <->
  length (filter (fun c => c = ch_colon) data) <> 1%nat.
Proof.
  rewrite vote_handler_run. unfold outcome_of.
  pose proof (split_on_aux_length ch_colon [] data) as Hlen.
  fold (split_on ch_colon data) in Hlen.
  destruct (split_on ch_colon data) as [|p1 [|p2 [|p3 ps]]]; simpl in *;
    try (split; [lia | done]).
  destruct (bool_decide _); simpl; (split; [done | lia]).
Qed.

(** A press of a button made by [create_vote_buttons] raises exactly when
    the claim identifier holds a colon. *)
Lemma vote_button_press_raises_iff
    (claim_id : pystr) (b : button) (from_user_id : Z) (st : bot_state) :
  b ∈ create_vote_buttons claim_id ->
  (outcome_of (vote_handler from_user_id (callback_data b) st)
     = Raise ValueError <-> ch_colon ∈ claim_id).
Proof.
  intros Hb. rewrite vote_handler_raises_iff.
  assert (Hdata : length (filter (fun c => c = ch_colon) (callback_data b))
            = S (length (filter (fun c => c = ch_colon) claim_id))).
  { unfold create_vote_buttons in Hb.
    apply elem_of_cons in Hb as [->|Hb];
      [|apply list_elem_of_singleton in Hb as ->];
      cbn [callback_data]; rewrite filter_app, length_app; reflexivity. }
  rewrite Hdata.
  split.
  - intros Hne. destruct (filter _ claim_id) as [|c l] eqn:E; [done|].
    assert (Hc : c ∈ filter (fun c => c = ch_colon) claim_id) by (rewrite E; left).
    apply list_elem_of_filter in Hc as [-> Hc]. done.
  - intros Hin.
    assert (Hc : ch_colon ∈ filter (fun c => c = ch_colon) claim_id)
      by (by apply list_elem_of_filter).
    destruct (filter _ claim_id); [by apply not_elem_of_nil in Hc | simpl; lia].
Qed.

(** On a payload ["<vote_type>:<claim_id>"] with no further colon, the first
    press of a voter is accepted and stored under the pair's key. *)
Lemma first_vote_accepted
    (vote_type claim_id : pystr) (from_user_id : Z) (st : bot_state) :
  ch_colon ∉ vote_type -> ch_colon ∉ claim_id ->
  feedback_store st !! vote_key claim_id from_user_id = None ->
  vote_handler from_user_id (vote_type ++ ch_colon :: claim_id) st =
    ([AnswerCallback; ReplyText thanks Plain []],
     {| claims_table := claims_table st;
        feedback_store :=
          <[vote_key claim_id from_user_id := vote_type]> (feedback_store st) |},
     Return tt).
Proof.
  intros Hv Hc Hnew. rewrite vote_handler_run, split_on_two by done. simpl.
  rewrite Hnew. rewrite bool_decide_eq_false_2; [done|].
  by intros [? ?].
Qed.

(** A later press of the same pair is answered "already voted" and changes
    nothing, whatever it votes. *)
Lemma repeat_vote_rejected
    (vote_type claim_id : pystr) (from_user_id : Z) (st : bot_state) :
  ch_colon ∉ vote_type -> ch_colon ∉ claim_id ->
  is_Some (feedback_store st !! vote_key claim_id from_user_id) ->
  vote_handler from_user_id (vote_type ++ ch_colon :: claim_id) st =
    ([AnswerCallback; ReplyText already_voted Plain []], st, Return tt).
Proof.
  intros Hv Hc Hold. rewrite vote_handler_run, split_on_two by done. simpl.
  by rewrite bool_decide_eq_true_2.
Qed.

(** No press ever changes or removes a stored vote. *)
Lemma stored_vote_is_final
    (from_user_id : Z) (data key value : pystr) (st : bot_state) :
  feedback_store st !! key = Some value ->
  feedback_store (state_of (vote_handler from_user_id data st)) !! key
    = Some value.
Proof.
  intros Hkey. rewrite vote_handler_run. unfold state_of.
  destruct (split_on ch_colon data) as [|p1 [|p2 [|p3 ps]]]; simpl; try done.
  destruct (bool_decide_reflect
              (is_Some (feedback_store st !! vote_key p2 from_user_id)))
    as [Hin|Hout]; simpl; [done|].
  rewrite lookup_insert_ne; [done|].
  intros <-. apply Hout. by rewrite Hkey.
Qed.

Lemma stored_vote_survives
    (presses : list (Z * pystr)) (key value : pystr) (st : bot_state) :
  feedback_store st !! key = Some value ->
  feedback_store (press_all presses st) !! key = Some value.
Proof.
  revert st. induction presses as [|[uid data] presses IH]; intros st Hkey.
  - done.
  - simpl. apply IH. by apply stored_vote_is_final.
Qed.

(** First vote wins, on payloads with one colon: after the first press of a
    pair, and any presses after it, the pair's stored vote is that first
    one. *)
Lemma first_vote_wins
    (vote_type claim_id : pystr) (from_user_id : Z)
    (later : list (Z * pystr)) (st : bot_state) :
  ch_colon ∉ vote_type -> ch_colon ∉ claim_id ->
  feedback_store st !! vote_key claim_id from_user_id = None ->
  feedback_store
    (press_all ((from_user_id, vote_type ++ ch_colon :: claim_id) :: later) st)
    !! vote_key claim_id from_user_id = Some vote_type.
Proof.
  intros Hv Hc Hnew. simpl. apply stored_vote_survives.
  rewrite first_vote_accepted by done. unfold state_of. simpl.
  apply lookup_insert_eq.
Qed.

(** A vote of one pair leaves the entry of every other pair as it was, so
    it never makes another pair's first press a duplicate. *)
Lemma vote_leaves_other_pairs
    (from_user_id other_user : Z) (data other_claim : pystr) (st : bot_state) :
  (forall vote_type claim_id,
     split_on ch_colon data = [vote_type; claim_id] ->
     (claim_id, from_user_id) <> (other_claim, other_user)) ->
  feedback_store (state_of (vote_handler from_user_id data st))
    !! vote_key other_claim other_user
  = feedback_store st !! vote_key other_claim other_user.
Proof.
  intros Hother. rewrite vote_handler_run. unfold state_of.
  destruct (split_on ch_colon data) as [|p1 [|p2 [|p3 ps]]]; simpl; try done.
  destruct (bool_decide _); simpl; [done|].
  apply lookup_insert_ne. intros [-> ->]%vote_key_inj.
  by apply (Hother p1 other_claim).
Qed.

(** Two voters on one identifier without a colon: both first presses are
    accepted, in either order. *)
Lemma two_voters_both_accepted
    (v1 v2 claim_id : pystr) (u1 u2 : Z) (st : bot_state) :
  ch_colon ∉ v1 -> ch_colon ∉ v2 -> ch_colon ∉ claim_id ->
  u1 <> u2 ->
  feedback_store st !! vote_key claim_id u1 = None ->
  feedback_store st !! vote_key claim_id u2 = None ->
  let st1 := state_of (vote_handler u1 (v1 ++ ch_colon :: claim_id) st) in
  replies (trace_of (vote_handler u1 (v1 ++ ch_colon :: claim_id) st))
    = [thanks] /\
  replies (trace_of (vote_handler u2 (v2 ++ ch_colon :: claim_id) st1))
    = [thanks] /\
  feedback_store (state_of (vote_handler u2 (v2 ++ ch_colon :: claim_id) st1))
    !! vote_key claim_id u1 = Some v1 /\
  feedback_store (state_of (vote_handler u2 (v2 ++ ch_colon :: claim_id) st1))
    !! vote_key claim_id u2 = Some v2.
Proof.
  intros H1 H2 Hc Hne Hn1 Hn2 st1.
  assert (Hkeys : vote_key claim_id u1 <> vote_key claim_id u2)
    by (intros [_ ?]%vote_key_inj; done).
  assert (Hst1 : st1 = {| claims_table := claims_table st;
                          feedback_store :=
                            <[vote_key claim_id u1 := v1]> (feedback_store st) |}).
  { subst st1. by rewrite (first_vote_accepted v1). }
  rewrite (first_vote_accepted v1 claim_id u1 st) by done.
  rewrite (first_vote_accepted v2 claim_id u2 st1); [|done|done|].
  2:{ rewrite Hst1. simpl. by rewrite lookup_insert_ne. }
  rewrite Hst1. unfold state_of, trace_of. simpl. repeat split.
  - rewrite lookup_insert_ne by done. apply lookup_insert_eq.
  - apply lookup_insert_eq.
Qed.

(** *** Identifiers that hold a colon

    [claim_id] comes from the raw claim text, so it can hold a colon; the
    payload ["vote_yes:<claim_id>"] then splits into more than two pieces and
    the unpacking in [vote_handler] raises. *)

(** C1 (at the identifier ["Ratio_is_3:1"]): the first press of voter 42 is
    not accepted: the handler raises [ValueError], sends no acknowledgement
    and stores no vote for the pair. *)
Theorem first_vote_on_colon_identifier_raises :
  let press :=
    vote_handler 42 (lit "vote_yes:Ratio_is_3:1") Scenario.empty_state in
  outcome_of press = Raise ValueError /\
  replies (trace_of press) = [] /\
  feedback_store (state_of press) !! vote_key (lit "Ratio_is_3:1") 42 = None.
Proof. vm_compute. repeat split. Qed.

(** C4 (at the claim text ["Ratio is 3:1"]): [/factcheck Ratio is 3:1]
    replies with two vote buttons keyed by ["Ratio_is_3:1"], and the press of
    either of them makes the vote handler raise [ValueError]. *)
Theorem vote_handler_raises_on_own_button :
  let args := [lit "Ratio"; lit "is"; lit "3:1"] in
  let claim_id := claim_id_of (join [ch_space] args) in
  claim_id = lit "Ratio_is_3:1" /\
  (exists text,
     last (trace_of (factcheck Scenario.calm Scenario.alice args
                       Scenario.empty_state))
       = Some (ReplyText text Markdown (create_vote_buttons claim_id))) /\
  Forall (fun b =>
            vote_handler 42 (callback_data b) Scenario.empty_state
              = ([AnswerCallback], Scenario.empty_state, Raise ValueError))
         (create_vote_buttons claim_id).
Proof.
  split; [reflexivity|]. split.
  - eexists. vm_compute. reflexivity.
  - repeat constructor.
Qed.

(** C10 (at the identifier ["Ratio_is_3:1"]): the first presses of two
    different voters, 1 and 2, both raise [ValueError]; neither is
    accepted. *)
Theorem two_voters_on_colon_identifier_raise :
  let first :=
    vote_handler 1 (lit "vote_yes:Ratio_is_3:1") Scenario.empty_state in
  let second :=
    vote_handler 2 (lit "vote_no:Ratio_is_3:1") (state_of first) in
  outcome_of first = Raise ValueError /\
  outcome_of second = Raise ValueError /\
  replies (trace_of first) = [] /\
  replies (trace_of second) = [] /\
  feedback_store (state_of second) = ∅.
Proof. vm_compute. repeat split. Qed.

(** ** The claim store *)

(** Every handler leaves the rows of the table in place, adding at most at
    the end. *)
Lemma dispatch_keeps_rows (w : world) (upd : update) (st : bot_state) :
  claims_table st `prefix_of` claims_table (state_of (dispatch w upd st)).
Proof.
  destruct upd as [| |u args| |u text|uid data]; simpl; try done.
  - destruct args as [|a args]; [done|].
    rewrite factcheck_run. unfold state_of.
    destruct (db_commit w) as [[]|e0]; [|done].
    destruct (result_bind _ _) as [r|e1]; [|by eexists].
    destruct (falsy r); [|by eexists].
    destruct (completion_content _ _); by eexists.
  - rewrite auto_fact_check_run. unfold state_of.
    destruct (negb _); [done|]. destruct (_ <? _)%nat; [done|].
    destruct (result_bind _ _) as [r|e1]; [|done].
    destruct (falsy r); [|done].
    by destruct (completion_content _ _).
  - rewrite vote_handler_run. unfold state_of.
    destruct (split_on ch_colon data) as [|p1 [|p2 [|p3 ps]]]; simpl; try done.
    by destruct (bool_decide _).
Qed.

Lemma run_updates_keeps_rows (inputs : list (world * update)) (st : bot_state) :
  claims_table st `prefix_of` claims_table (run_updates inputs st).
Proof.
  revert st. induction inputs as [|[w upd] inputs IH]; intros st; [done|].
  simpl. etrans; [apply (dispatch_keeps_rows w upd)|apply IH].
Qed.

(** C2 (as stated, at an admin's message of four words): the message
    qualifies and is answered, yet no write is issued and the table holds
    no row afterwards. *)
Lemma qualifying_group_message_not_logged :
  let text := lit "Earth is really flat" in
  let run :=
    auto_fact_check Scenario.calm Scenario.admin text Scenario.empty_state in
  bool_decide (user_id Scenario.admin ∈ ADMIN_IDS Scenario.calm) = true /\
  count_words text = 4%nat /\
  outcome_of run = Return tt /\
  length (replies (trace_of run)) = 1%nat /\
  filter is_db_write (trace_of run) = [] /\
  claims_table (state_of run) = [].
Proof. vm_compute. repeat split. Qed.

(** C2 (amended): [/factcheck <words>] issues exactly one insert, and when
    the write succeeds the table gains exactly one row at its end, holding
    the sender's id and name and the joined words; a group message, even a
    qualifying one, writes nothing; and whatever updates arrive, the rows
    already in the table stay as a prefix of it: none is changed or
    removed. *)
Theorem claim_store_append_only (w : world) (st : bot_state) :
  (forall u a args,
     let claim := join [ch_space] (a :: args) in
     filter is_db_write (trace_of (factcheck w u (a :: args) st))
       = [DbInsert (user_id u) (username u) claim] /\
     (db_commit w = Return tt ->
      claims_table (state_of (factcheck w u (a :: args) st)) =
        claims_table st ++
        [{| row_id := next_row_id (claims_table st);
            row_user_id := user_id u;
            row_username := username u;
            row_claim := claim;
            row_timestamp := current_timestamp w |}])) /\
  (forall u text,
     filter is_db_write (trace_of (auto_fact_check w u text st)) = [] /\
     claims_table (state_of (auto_fact_check w u text st)) = claims_table st) /\
  (forall inputs,
     claims_table st `prefix_of` claims_table (run_updates inputs st)).
Proof.
  split; [|split].
  - intros u a args claim. subst claim. rewrite factcheck_run.
    unfold state_of, trace_of. split.
    + destruct (db_commit w) as [[]|e0]; [|done].
      destruct (result_bind _ _) as [r|e1]; [|done].
      destruct (falsy r); [|done].
      by destruct (completion_content _ _).
    + intros ->.
      destruct (result_bind _ _) as [r|e1]; [|done].
      destruct (falsy r); [|done].
      by destruct (completion_content _ _).
  - intros u text. rewrite auto_fact_check_run. unfold state_of, trace_of.
    destruct (negb _); [done|]. destruct (_ <? _)%nat; [done|].
    destruct (result_bind _ _) as [r|e1]; [|done].
    destruct (falsy r); [|done].
    by destruct (completion_content _ _).
  - intros inputs. apply run_updates_keeps_rows.
Qed.

Lemma claim_store_append_only_witness :
  claims_table
    (state_of (factcheck Scenario.calm Scenario.alice
                 [lit "Earth"; lit "is"; lit "flat"] Scenario.empty_state))
  = [{| row_id := 1;
        row_user_id := 42;
        row_username := Some (lit "alice");
        row_claim := lit "Earth is flat";
        row_timestamp := 1700000000%N |}].
Proof.
  apply (claim_store_append_only Scenario.calm Scenario.empty_state).
  reflexivity.
Defined.

(** ** The fact-check lookup *)

(** One step of the chain of lookups in [summarize]. *)
Ltac step_result :=
  match goal with
  | |- context [result_bind ?r _] =>
      let v := fresh "v" in
      destruct r as [v|?]; cbn [result_bind]; try discriminate
  end.

Lemma summarize_none_iff (w : world) (response : list (pystr * json)) :
  summarize w (JObj response) = Return None <-> no_claims response = true.
Proof.
  unfold summarize, no_claims. cbn [py_get result_bind].
  destruct (truthy _); cbn [negb]; [|done].
  split; [|done]. repeat step_result.
Qed.

Lemma summarize_first_only
    (w : world) (response : list (pystr * json)) (c : json) (rest : list json) :
  member (lit "claims") response = Some (JArr (c :: rest)) ->
  summarize w (JObj response) = summarize w (JObj [(lit "claims", JArr [c])]).
Proof.
  intros H. unfold summarize. cbn [py_get py_item result_bind member].
  rewrite H, decide_True by done. reflexivity.
Qed.

Lemma summarize_fields
    (w : world) (response claim review publisher : list (pystr * json))
    (rest : list json) :
  member (lit "claims") response = Some (JArr (JObj claim :: rest)) ->
  first_review claim = Some review ->
  publisher_of review = Some publisher ->
  summarize w (JObj response) =
    Return (Some (summary_text
      (field w claim (lit "text") (lit "Unknown"))
      (field w claim (lit "claimant") (lit "Unknown"))
      (field w review (lit "textualRating") (lit "Unrated"))
      (field w publisher (lit "name") (lit "Unknown"))
      (field w review (lit "url") []))).
Proof.
  intros Hc Hr Hp. unfold summarize, first_review, publisher_of, field in *.
  cbn [py_get py_item result_bind]. rewrite Hc. revert Hr Hp.
  cbv [py_get py_first result_bind default from_option id truthy negb].
  destruct (member (lit "claimReview") claim) as [[| | | |[|[| | | | |r] ?]|]|];
    intros Hr; try discriminate Hr; injection Hr as <-;
    destruct (member (lit "publisher") _) as [[| | | | |p]|];
    intros Hp; try discriminate Hp; injection Hp as <-; reflexivity.
Qed.

(** A summary is never the empty string, so [not response] in the handlers
    holds exactly when the lookup returned [None]. *)
Lemma summarize_not_blank (w : world) (data : json) (response : option pystr) :
  summarize w data = Return response ->
  falsy response = true <-> response = None.
Proof.
  intros H. split; [|by intros ->].
  destruct response as [[|c t]|]; [|done|done].
  exfalso. revert H. unfold summarize.
  destruct (py_get data _ _) as [cs|]; cbn [result_bind]; [|done].
  destruct (negb (truthy cs)); [done|].
  repeat step_result.
Qed.

(** A response that is not an object, or a claim whose review list is
    present but empty, is a parsing failure: the lookup raises. *)
Lemma summarize_malformed (w : world) :
  summarize w (JArr []) = Raise AttributeError /\
  summarize w (JObj [(lit "claims",
                      JArr [JObj [(lit "claimReview", JArr [])]])])
    = Raise IndexError.
Proof. split; reflexivity. Qed.

(** C3 (as stated, at a response whose one claim is an empty object): the
    absent review link is rendered as the empty string, not as "Unknown" or
    "Unrated". *)
Lemma absent_review_link_is_empty :
  let response := JObj [(lit "claims", JArr [JObj []])] in
  summarize Scenario.calm response =
    Return (Some (summary_text (lit "Unknown") (lit "Unknown") (lit "Unrated")
                    (lit "Unknown") [])) /\
  summarize Scenario.calm response <>
    Return (Some (summary_text (lit "Unknown") (lit "Unknown") (lit "Unrated")
                    (lit "Unknown") (lit "Unknown"))) /\
  summarize Scenario.calm response <>
    Return (Some (summary_text (lit "Unknown") (lit "Unknown") (lit "Unrated")
                    (lit "Unknown") (lit "Unrated"))).
Proof. vm_compute. repeat split; discriminate. Qed.

(** C3 (amended): the lookup returns [None] exactly when the response holds
    no claims; otherwise its result depends on the first claim only, and for
    a first claim that is an object (with a review and a publisher that are
    objects when present) it is the summary of the five fields, where an
    absent claim text, claimant or publisher name reads "Unknown", an absent
    rating reads "Unrated", and an absent review link is the empty string. *)
Theorem summarize_first_claim (w : world) (response : list (pystr * json)) :
  (summarize w (JObj response) = Return None <-> no_claims response = true) /\
  (forall c rest,
     member (lit "claims") response = Some (JArr (c :: rest)) ->
     summarize w (JObj response)
       = summarize w (JObj [(lit "claims", JArr [c])])) /\
  (forall claim rest review publisher,
     member (lit "claims") response = Some (JArr (JObj claim :: rest)) ->
     first_review claim = Some review ->
     publisher_of review = Some publisher ->
     summarize w (JObj response) =
       Return (Some (summary_text
         (field w claim (lit "text") (lit "Unknown"))
         (field w claim (lit "claimant") (lit "Unknown"))
         (field w review (lit "textualRating") (lit "Unrated"))
         (field w publisher (lit "name") (lit "Unknown"))
         (field w review (lit "url") [])))).
Proof.
  split; [apply summarize_none_iff|]. split.
  - intros c rest. apply summarize_first_only.
  - intros claim rest review publisher. apply summarize_fields.
Qed.

Lemma summarize_first_claim_witness :
  summarize Scenario.calm
    (JObj [(lit "claims",
            JArr [JObj [(lit "text", JStr (lit "Earth is flat"));
                        (lit "claimReview",
                         JArr [JObj [(lit "publisher",
                                      JObj [(lit "name", JStr (lit "Snopes"))])]])];
                  JObj [(lit "text", JStr (lit "Earth is round"))]])])
  = Return (Some (summary_text (lit "Earth is flat") (lit "Unknown")
                    (lit "Unrated") (lit "Snopes") [])).
Proof.
  destruct (summarize_first_claim Scenario.calm
    [(lit "claims",
      JArr [JObj [(lit "text", JStr (lit "Earth is flat"));
                  (lit "claimReview",
                   JArr [JObj [(lit "publisher",
                                JObj [(lit "name", JStr (lit "Snopes"))])]])];
            JObj [(lit "text", JStr (lit "Earth is round"))]])])
    as (_ & _ & Hfields).
  apply (Hfields
           [(lit "text", JStr (lit "Earth is flat"));
            (lit "claimReview",
             JArr [JObj [(lit "publisher",
                          JObj [(lit "name", JStr (lit "Snopes"))])]])]
           [JObj [(lit "text", JStr (lit "Earth is round"))]]
           [(lit "publisher", JObj [(lit "name", JStr (lit "Snopes"))])]
           [(lit "name", JStr (lit "Snopes"))]);
    reflexivity.
Defined.

(** The advisor is asked only when the lookup is empty: a summary found is
    sent as it is, with no completion request. *)
Lemma summary_sent_without_advisor
    (w : world) (u : user) (a : pystr) (args : list pystr) (st : bot_state)
    (data : json) (text : pystr) :
  let claim := join [ch_space] (a :: args) in
  let run := factcheck w u (a :: args) st in
  db_commit w = Return tt ->
  fact_check_search w claim = Return data ->
  summarize w data = Return (Some text) ->
  filter is_advisor_call (trace_of run) = [] /\
  replies (trace_of run) = [text] /\
  outcome_of run = Return tt.
Proof.
  intros claim run Hdb Hsearch Hsum. subst run.
  rewrite factcheck_run. fold claim. rewrite Hdb, Hsearch. simpl.
  rewrite Hsum.
  destruct (falsy (Some text)) eqn:Hf; [|done].
  apply (summarize_not_blank w data) in Hf; done.
Qed.

(** * Further properties of the handlers *)

(** ** What each handler may change *)

Lemma dispatch_feedback_frame (w : world) (upd : update) (st : bot_state) :
  match upd with
  | CallbackQuery _ _ => True
  | _ => feedback_store (state_of (dispatch w upd st)) = feedback_store st
  end.
Proof.
  destruct upd as [| |u args| |u text|uid data]; simpl; try done.
  - destruct args as [|a args]; [done|].
    rewrite factcheck_run. unfold state_of.
    destruct (db_commit w) as [[]|e0]; [|done].
    destruct (result_bind _ _) as [r|e1]; [|done].
    destruct (falsy r); [|done].
    by destruct (completion_content _ _).
  - rewrite auto_fact_check_run. unfold state_of.
    destruct (negb _); [done|]. destruct (_ <? _)%nat; [done|].
    destruct (result_bind _ _) as [r|e1]; [|done].
    destruct (falsy r); [|done].
    by destruct (completion_content _ _).
Qed.

Lemma dispatch_table_frame (w : world) (upd : update) (st : bot_state) :
  match upd with
  | FactcheckCommand _ (_ :: _) => True
  | _ => claims_table (state_of (dispatch w upd st)) = claims_table st
  end.
Proof.
  destruct upd as [| |u [|a args]| |u text|uid data]; simpl; try done.
  - rewrite auto_fact_check_run. unfold state_of.
    destruct (negb _); [done|]. destruct (_ <? _)%nat; [done|].
    destruct (result_bind _ _) as [r|e1]; [|done].
    destruct (falsy r); [|done].
    by destruct (completion_content _ _).
  - rewrite vote_handler_run. unfold state_of.
    destruct (split_on ch_colon data) as [|p1 [|p2 [|p3 ps]]]; simpl; try done.
    by destruct (bool_decide _).
Qed.

Lemma dispatch_keeps_votes
    (w : world) (upd : update) (st : bot_state) (key value : pystr) :
  feedback_store st !! key = Some value ->
  feedback_store (state_of (dispatch w upd st)) !! key = Some value.
Proof.
  intros Hkey. pose proof (dispatch_feedback_frame w upd st) as Hframe.
  destruct upd; try (by rewrite Hframe).
  by apply stored_vote_is_final.
Qed.

Lemma run_updates_keeps_votes
    (inputs : list (world * update)) (st : bot_state) (key value : pystr) :
  feedback_store st !! key = Some value ->
  feedback_store (run_updates inputs st) !! key = Some value.
Proof.
  revert st. induction inputs as [|[w upd] inputs IH]; intros st Hkey; [done|].
  simpl. apply IH. by apply dispatch_keeps_votes.
Qed.

(** X9: a handler changes only the store that is its own: the feedback
    store is touched by a button press alone, the claims table by a
    [/factcheck] with arguments alone; [/start], [/help], [/quicknews] and
    group messages leave the whole state as it was. *)
Theorem handlers_change_only_their_store
    (w : world) (upd : update) (st : bot_state) :
  match upd with
  | CallbackQuery _ _ =>
      claims_table (state_of (dispatch w upd st)) = claims_table st
  | FactcheckCommand _ (_ :: _) =>
      feedback_store (state_of (dispatch w upd st)) = feedback_store st
  | _ => state_of (dispatch w upd st) = st
  end.
Proof.
  pose proof (dispatch_feedback_frame w upd st) as Hf.
  pose proof (dispatch_table_frame w upd st) as Ht.
  destruct upd as [| |u [|a args]| |u text|uid data]; try done;
    destruct (state_of _) as [t f], st as [t0 f0]; simpl in *; congruence.
Qed.

(** ** Votes *)

(** X1: the vote handler raises exactly when the payload does not hold
    exactly one colon, and then it has only answered the callback: the state
    is unchanged and nothing is sent to the chat.  With exactly one colon it
    returns. *)
Theorem vote_payload_unpacking (from_user_id : Z) (data : pystr) (st : bot_state) :
  let run := vote_handler from_user_id data st in
  let colons := length (filter (fun c => c = ch_colon) data) in
  (colons <> 1%nat <-> run = ([AnswerCallback], st, Raise ValueError)) /\
  (colons = 1%nat <-> outcome_of run = Return tt).
Proof.
  intros run colons. subst run colons.
  rewrite vote_handler_run. unfold outcome_of.
  pose proof (split_on_aux_length ch_colon [] data) as Hlen.
  fold (split_on ch_colon data) in Hlen.
  destruct (split_on ch_colon data) as [|p1 [|p2 [|p3 ps]]]; simpl in *;
    try (split; split; (done || lia)).
  destruct (bool_decide _); simpl; split; split; (done || lia).
Qed.

(** X2: the key under which a vote is stored identifies the pair: two
    pairs of claim identifier and voter id with the same key are the same
    pair, although the key is one string. *)
Theorem vote_key_identifies_pair (c1 c2 : pystr) (u1 u2 : Z) :
  vote_key c1 u1 = vote_key c2 u2 <-> c1 = c2 /\ u1 = u2.
Proof.
  split; [apply vote_key_inj | by intros [-> ->]].
Qed.

(** X4: a vote once stored is final: whatever updates arrive later
    (presses of any voter with any payload, commands, group messages), the
    entry keeps its value. *)
Theorem stored_votes_are_final
    (inputs : list (world * update)) (st : bot_state) (key value : pystr) :
  feedback_store st !! key = Some value ->
  feedback_store (run_updates inputs st) !! key = Some value.
Proof. apply run_updates_keeps_votes. Qed.

(** X3: on a payload ["<vote_type>:<claim_id>"] with no other colon, the
    first press of a voter is thanked and stored under the pair's key, and
    after any later updates the stored vote is still that first one. *)
Theorem first_vote_is_kept
    (w : world) (vote_type claim_id : pystr) (from_user_id : Z)
    (later : list (world * update)) (st : bot_state) :
  ch_colon ∉ vote_type -> ch_colon ∉ claim_id ->
  feedback_store st !! vote_key claim_id from_user_id = None ->
  let press := CallbackQuery from_user_id (vote_type ++ ch_colon :: claim_id) in
  replies (trace_of (dispatch w press st)) = [thanks] /\
  feedback_store (run_updates ((w, press) :: later) st)
    !! vote_key claim_id from_user_id = Some vote_type.
Proof.
  intros Hv Hc Hnew press. subst press. simpl.
  rewrite first_vote_accepted by done. split; [done|].
  apply run_updates_keeps_votes. unfold state_of. simpl.
  apply lookup_insert_eq.
Qed.

(** X5: a press by a pair that has a stored vote is answered "already
    voted", whatever it votes, and leaves the whole state as it was. *)
Theorem repeated_vote_changes_nothing
    (vote_type claim_id : pystr) (from_user_id : Z) (st : bot_state) :
  ch_colon ∉ vote_type -> ch_colon ∉ claim_id ->
  is_Some (feedback_store st !! vote_key claim_id from_user_id) ->
  let run := vote_handler from_user_id (vote_type ++ ch_colon :: claim_id) st in
  replies (trace_of run) = [already_voted] /\
  state_of run = st /\
  outcome_of run = Return tt.
Proof.
  intros Hv Hc Hold run. subst run.
  by rewrite repeat_vote_rejected.
Qed.

(** X6: a press changes at most the entry of its own pair: the entry of
    every other pair of claim identifier and voter is what it was, so a vote
    never makes another voter's, or another claim's, first press a
    duplicate. *)
Theorem vote_touches_own_pair_only
    (from_user_id : Z) (data : pystr) (st : bot_state)
    (other_claim : pystr) (other_user : Z) :
  (forall vote_type,
     split_on ch_colon data <> [vote_type; other_claim]) \/
  from_user_id <> other_user ->
  feedback_store (state_of (vote_handler from_user_id data st))
    !! vote_key other_claim other_user
  = feedback_store st !! vote_key other_claim other_user.
Proof.
  intros Hother. apply vote_leaves_other_pairs.
  intros vote_type claim_id Hsplit [= -> ->].
  destruct Hother as [Hother|Hother]; [by apply (Hother vote_type)|done].
Qed.

(** X7: the payload of a vote button is read back by the handler: for a
    claim identifier with no colon, pressing a button made for it stores the
    button's vote type ("vote_yes" or "vote_no") under the key of that
    identifier and the voter; for an identifier with a colon the press
    raises. *)
Theorem vote_button_round_trip
    (claim_id : pystr) (from_user_id : Z) (st : bot_state) :
  feedback_store st !! vote_key claim_id from_user_id = None ->
  (ch_colon ∉ claim_id ->
   map (fun b =>
          feedback_store (state_of (vote_handler from_user_id (callback_data b) st))
            !! vote_key claim_id from_user_id)
       (create_vote_buttons claim_id)
   = [Some (lit "vote_yes"); Some (lit "vote_no")]) /\
  (ch_colon ∈ claim_id ->
   map (fun b => outcome_of (vote_handler from_user_id (callback_data b) st))
       (create_vote_buttons claim_id)
   = [Raise ValueError; Raise ValueError]).
Proof.
  intros Hnew. split.
  - intros Hc. unfold create_vote_buttons. cbn [map callback_data].
    change (lit "vote_yes:") with (lit "vote_yes" ++ [ch_colon]).
    change (lit "vote_no:") with (lit "vote_no" ++ [ch_colon]).
    rewrite <- !app_assoc. cbn [app].
    assert (Hyes : ch_colon ∉ lit "vote_yes").
    { vm_compute. intros H.
      repeat (apply elem_of_cons in H as [H|H]; [discriminate|]).
      by apply not_elem_of_nil in H. }
    assert (Hno : ch_colon ∉ lit "vote_no").
    { vm_compute. intros H.
      repeat (apply elem_of_cons in H as [H|H]; [discriminate|]).
      by apply not_elem_of_nil in H. }
    rewrite !first_vote_accepted by done. unfold state_of. simpl.
    by rewrite !lookup_insert_eq.
  - intros Hc.
    assert (Hraise : forall b, b ∈ create_vote_buttons claim_id ->
              outcome_of (vote_handler from_user_id (callback_data b) st)
                = Raise ValueError).
    { intros b Hb. by apply (vote_button_press_raises_iff claim_id). }
    unfold create_vote_buttons in *. cbn [map].
    rewrite !Hraise; [done| |]; set_solver.
Qed.

(** ** The ephemeral claim identifier *)

(** X8: the identifier of a claim has the first 50 characters' length at
    most, holds no space, and is all the handler of a later press knows of
    the claim: two claims that agree on their first 50 characters, or differ
    there only by spaces against underscores, get the same identifier and so
    the same buttons. *)
Theorem claim_id_shape (claim : pystr) :
  length (claim_id_of claim) = Nat.min 50 (length claim) /\
  (ch_space ∉ claim_id_of claim) /\
  (forall other,
     replace ch_space ch_underscore (take 50 other)
       = replace ch_space ch_underscore (take 50 claim) ->
     create_vote_buttons (claim_id_of other)
       = create_vote_buttons (claim_id_of claim)) /\
  claim_id_of (claim_id_of claim) = claim_id_of claim.
Proof.
  unfold claim_id_of, slice_to, replace. repeat split.
  - by rewrite length_map, length_take.
  - rewrite list_elem_of_In, in_map_iff. intros (c & Hc & _).
    destruct (N.eqb_spec c ch_space) as [_|Hne]; [discriminate Hc|done].
  - by intros other ->.
  - rewrite take_ge by (rewrite length_map, length_take; lia).
    rewrite map_map. apply map_ext. intros c.
    destruct (N.eqb_spec c ch_space) as [->|Hne]; [done|].
    by destruct (N.eqb_spec c ch_space).
Qed.

(** ** Replies *)

(** X10: every update gets at most one reply; a run that raises sends
    none; and a run that returns sends exactly one, except for a group
    message that the gate turns away, which is passed over in silence. *)
Theorem reply_discipline (w : world) (upd : update) (st : bot_state) :
  let run := dispatch w upd st in
  match outcome_of run with
  | Raise _ => replies (trace_of run) = []
  | Return _ =>
      length (replies (trace_of run)) = (if turned_away w upd then 0 else 1)%nat
  end.
Proof.
  intros run. subst run.
  destruct upd as [| |u [|a args]| |u text|uid data];
    cbn [dispatch turned_away]; try done.
  - rewrite factcheck_run. unfold outcome_of, trace_of.
    destruct (db_commit w) as [[]|e0]; [|done].
    destruct (result_bind _ _) as [r|e1]; [|done].
    destruct (falsy r); [|done].
    by destruct (completion_content _ _).
  - rewrite auto_fact_check_run. unfold qualifies, outcome_of, trace_of.
    rewrite <- split_ws_length, Nat.leb_antisym.
    destruct (bool_decide _); cbn [negb andb]; [|done].
    destruct (_ <? _)%nat; cbn [negb]; [done|].
    destruct (result_bind _ _) as [r|e1]; [|done].
    destruct (falsy r); [|done].
    by destruct (completion_content _ _).
  - rewrite vote_handler_run. unfold outcome_of, trace_of.
    destruct (split_on ch_colon data) as [|p1 [|p2 [|p3 ps]]]; simpl; try done.
    by destruct (bool_decide _).
Qed.

(** ** Failures of the lookup *)

(** X11: when the fact-check request, or the reading of its response,
    raises, the exception ends the handler: in [/factcheck] the claim has
    been stored by then and stays stored, in the automatic check the state
    is untouched; in both the advisor is not asked and the user gets no
    reply. *)
Theorem lookup_failure_propagates
    (w : world) (u : user) (st : bot_state) (e : exn) :
  (forall a args,
     let claim := join [ch_space] (a :: args) in
     db_commit w = Return tt ->
     outcome_of (query_google_fact_check_api w claim (logged w u claim st))
       = Raise e ->
     factcheck w u (a :: args) st =
       ([DbInsert (user_id u) (username u) claim; FactCheckSearch claim],
        logged w u claim st, Raise e)) /\
  (forall text,
     qualifies w u text = true ->
     outcome_of (query_google_fact_check_api w text st) = Raise e ->
     auto_fact_check w u text st = ([FactCheckSearch text], st, Raise e)).
Proof.
  split.
  - intros a args claim Hdb Hq.
    rewrite query_run in Hq. unfold outcome_of in Hq. cbn [snd] in Hq.
    rewrite factcheck_run. fold claim. by rewrite Hdb, Hq.
  - intros text Hgate Hq.
    rewrite query_run in Hq. unfold outcome_of in Hq. cbn [snd] in Hq.
    unfold qualifies in Hgate. rewrite <- split_ws_length in Hgate.
    apply andb_true_iff in Hgate as [Hadmin Hwords].
    rewrite Nat.leb_antisym in Hwords. apply negb_true_iff in Hwords.
    by rewrite auto_fact_check_run, Hadmin, Hwords, Hq.
Qed.

Lemma lookup_failure_propagates_witness :
  let w := {| ADMIN_IDS := [7];
              fact_check_search := fun _ => Raise RequestException;
              chat_completion := chat_completion Scenario.calm;
              db_commit := Return tt;
              current_timestamp := 0%N;
              repr_of := repr_of Scenario.calm |} in
  factcheck w Scenario.alice [lit "Earth"; lit "is"; lit "flat"]
      Scenario.empty_state
    = ([DbInsert 42 (Some (lit "alice")) (lit "Earth is flat");
        FactCheckSearch (lit "Earth is flat")],
       logged w Scenario.alice (lit "Earth is flat") Scenario.empty_state,
       Raise RequestException) /\
  auto_fact_check w Scenario.admin (lit "Earth is really flat")
      Scenario.empty_state
    = ([FactCheckSearch (lit "Earth is really flat")], Scenario.empty_state,
       Raise RequestException).
Proof.
  intros w.
  destruct (lookup_failure_propagates w Scenario.alice Scenario.empty_state
              RequestException) as [Hcmd _].
  destruct (lookup_failure_propagates w Scenario.admin Scenario.empty_state
              RequestException) as [_ Hauto].
  split.
  - apply (Hcmd (lit "Earth") [lit "is"; lit "flat"]); reflexivity.
  - apply (Hauto (lit "Earth is really flat")); reflexivity.
Defined.

(** ** When the advisor is asked *)

(** X12: in [/factcheck] the advisor is asked exactly when the lookup
    returned [None]; a summary that was found is sent as it is, with no
    completion request.  (A summary is never the empty string, so the test
    [not response] cannot mistake one for an empty result.) *)
Theorem advisor_asked_iff_lookup_empty
    (w : world) (u : user) (a : pystr) (args : list pystr) (st : bot_state)
    (response : option pystr) :
  let claim := join [ch_space] (a :: args) in
  let run := factcheck w u (a :: args) st in
  db_commit w = Return tt ->
  outcome_of (query_google_fact_check_api w claim (logged w u claim st))
    = Return response ->
  filter is_advisor_call (trace_of run)
    = match response with None => [ChatCompletion claim] | Some _ => [] end /\
  (forall text, response = Some text -> replies (trace_of run) = [text]).
Proof.
  intros claim run Hdb Hq. subst run.
  rewrite query_run in Hq. unfold outcome_of in Hq. simpl in Hq.
  assert (Hblank : falsy response = true <-> response = None).
  { destruct (fact_check_search w claim) as [data|]; [|done].
    by apply (summarize_not_blank w data). }
  rewrite factcheck_run. fold claim. rewrite Hdb, Hq. unfold trace_of.
  destruct response as [text|].
  - assert (Hf : falsy (Some text) = false).
    { apply not_true_is_false. intros Hf. by apply Hblank in Hf. }
    rewrite Hf. split; [done|]. by intros ? [= <-].
  - simpl. split; [|done].
    by destruct (completion_content w claim).
Qed.

Lemma advisor_asked_iff_lookup_empty_witness :
  let found := JObj [(lit "claims", JArr [JObj [(lit "text", JStr (lit "x"))]])] in
  let w := {| ADMIN_IDS := [];
              fact_check_search := fun _ => Return found;
              chat_completion := chat_completion Scenario.calm;
              db_commit := Return tt;
              current_timestamp := 0%N;
              repr_of := repr_of Scenario.calm |} in
  filter is_advisor_call
    (trace_of (factcheck w Scenario.alice [lit "x"] Scenario.empty_state)) = [] /\
  filter is_advisor_call
    (trace_of (factcheck Scenario.calm Scenario.alice [lit "x"]
                 Scenario.empty_state)) = [ChatCompletion (lit "x")].
Proof.
  intros found w. split.
  - apply (advisor_asked_iff_lookup_empty w Scenario.alice (lit "x") []
             Scenario.empty_state
             (Some (summary_text (lit "x") (lit "Unknown") (lit "Unrated")
                      (lit "Unknown") []))); reflexivity.
  - apply (advisor_asked_iff_lookup_empty Scenario.calm Scenario.alice
             (lit "x") [] Scenario.empty_state None); reflexivity.
Defined.

(** ** The advisor on its own *)

(** X13: the advisor returns the unavailability message exactly when the
    completion request raised or its response holds no content under
    [['choices'][0]['message']['content']], and exactly then it logs an
    error; a request that raised, whatever the exception, gives the run of
    one request, one logged error and the unavailability message; a response
    that holds a content gives that content under the "AI Suggestion"
    heading.  The advisor never raises and never changes the state. *)
Theorem advisor_unavailable_iff (w : world) (claim : pystr) (st : bot_state) :
  let run := ai_suggest_fact_check w claim st in
  let unanswered := answer_of (chat_completion w claim) = None in
  (outcome_of run = Return unavailable_message <-> unanswered) /\
  (LogError ∈ trace_of run <-> unanswered) /\
  (forall e, chat_completion w claim = Raise e ->
     run = ([ChatCompletion claim; LogError], st, Return unavailable_message)) /\
  (forall content, answer_of (chat_completion w claim) = Some content ->
     run = ([ChatCompletion claim], st,
            Return (lit "🤖 *AI Suggestion:*" ++ nl ++ nl ++ py_str w content))) /\
  state_of run = st.
Proof.
  intros run unanswered. subst run unanswered.
  rewrite ai_suggest_fact_check_run.
  pose proof (completion_content_answer w claim) as Hanswer.
  destruct (answer_of (chat_completion w claim)) as [content|] eqn:Hworld.
  - rewrite Hanswer. unfold outcome_of, trace_of, state_of. cbn [fst snd].
    split; [|split; [|split; [|split]]].
    + split; [|done]. intros [= H].
    + split; [|done].
      intros [[=]|H]%elem_of_cons. by apply not_elem_of_nil in H.
    + intros e He. by rewrite He in Hworld.
    + by intros ? [= <-].
    + reflexivity.
  - destruct Hanswer as [e0 ->].
    unfold outcome_of, trace_of, state_of. cbn [fst snd].
    split; [|split; [|split; [|split]]]; try done.
    split; [done|]. intros _. apply list_elem_of_further, list_elem_of_here.
Qed.

Lemma advisor_unavailable_iff_witness :
  chat_completion Scenario.no_quota (lit "Earth is flat") = Raise OpenAIError /\
  ai_suggest_fact_check Scenario.no_quota (lit "Earth is flat")
      Scenario.empty_state
    = ([ChatCompletion (lit "Earth is flat"); LogError], Scenario.empty_state,
       Return unavailable_message) /\
  ai_suggest_fact_check Scenario.calm (lit "Earth is flat") Scenario.empty_state
    = ([ChatCompletion (lit "Earth is flat")], Scenario.empty_state,
       Return (lit "🤖 *AI Suggestion:*" ++ nl ++ nl ++ lit "False.")).
Proof.
  split; [reflexivity|]. split.
  - destruct (advisor_unavailable_iff Scenario.no_quota (lit "Earth is flat")
                Scenario.empty_state) as (_ & _ & Hraised & _).
    apply (Hraised OpenAIError). reflexivity.
  - destruct (advisor_unavailable_iff Scenario.calm (lit "Earth is flat")
                Scenario.empty_state) as (_ & _ & _ & Hanswered & _).
    apply (Hanswered (JStr (lit "False."))). reflexivity.
Defined.

(** X14: a completion response of an unexpected shape is survived like a
    failed request: when the response is not an object, has no ["choices"],
    or ["choices"] is an empty list, the advisor returns the unavailability
    message. *)
Theorem advisor_survives_malformed_response
    (w : world) (claim : pystr) (st : bot_state) (res : json) :
  chat_completion w claim = Return res ->
  match res with
  | JObj ms => member (lit "choices") ms = None \/
               member (lit "choices") ms = Some (JArr [])
  | _ => True
  end ->
  ai_suggest_fact_check w claim st
    = ([ChatCompletion claim; LogError], st, Return unavailable_message).
Proof.
  intros Hres Hshape. rewrite ai_suggest_fact_check_run.
  unfold completion_content. rewrite Hres. cbn [result_bind].
  destruct res as [| | | | |ms]; try reflexivity.
  cbn [py_item]. by destruct Hshape as [-> | ->].
Qed.

Lemma advisor_survives_malformed_response_witness :
  let w := {| ADMIN_IDS := [];
              fact_check_search := fact_check_search Scenario.calm;
              chat_completion := fun _ => Return (JObj [(lit "choices", JArr [])]);
              db_commit := Return tt;
              current_timestamp := 0%N;
              repr_of := repr_of Scenario.calm |} in
  ai_suggest_fact_check w (lit "Earth is flat") Scenario.empty_state
    = ([ChatCompletion (lit "Earth is flat"); LogError], Scenario.empty_state,
       Return unavailable_message).
Proof.
  intros w.
  apply (advisor_survives_malformed_response w (lit "Earth is flat")
           Scenario.empty_state (JObj [(lit "choices", JArr [])]));
    [reflexivity | by right].
Defined.

(** ** The reading of the search response *)

(** X15: of the reviews of the first claim only the first is read: two
    claim objects that agree on every member but ["claimReview"], and whose
    review lists start with the same review, give the same result. *)
Theorem summarize_first_review_only
    (w : world) (claim1 claim2 : list (pystr * json))
    (review : json) (more1 more2 rest1 rest2 : list json) :
  member (lit "claimReview") claim1 = Some (JArr (review :: more1)) ->
  member (lit "claimReview") claim2 = Some (JArr (review :: more2)) ->
  (forall k, k <> lit "claimReview" -> member k claim1 = member k claim2) ->
  summarize w (JObj [(lit "claims", JArr (JObj claim1 :: rest1))])
    = summarize w (JObj [(lit "claims", JArr (JObj claim2 :: rest2))]).
Proof.
  intros H1 H2 Hsame. unfold summarize.
  cbn [py_get py_item result_bind member].
  rewrite !decide_True by done.
  cbv [default from_option id truthy negb py_first result_bind py_get].
  rewrite H1, H2.
  rewrite (Hsame (lit "text")) by (vm_compute; discriminate).
  rewrite (Hsame (lit "claimant")) by (vm_compute; discriminate).
  reflexivity.
Qed.

Lemma summarize_first_review_only_witness :
  let snopes := JObj [(lit "textualRating", JStr (lit "False"))] in
  let other := JObj [(lit "textualRating", JStr (lit "True"))] in
  summarize Scenario.calm
    (JObj [(lit "claims",
            JArr [JObj [(lit "claimReview", JArr [snopes; other])]])])
  = summarize Scenario.calm
    (JObj [(lit "claims",
            JArr [JObj [(lit "claimReview", JArr [snopes])]])]).
Proof.
  intros snopes other.
  apply (summarize_first_review_only Scenario.calm
           [(lit "claimReview", JArr [snopes; other])]
           [(lit "claimReview", JArr [snopes])]
           snopes [other] [] [] []).
  - reflexivity.
  - reflexivity.
  - intros k Hk. simpl. by rewrite !decide_False by done.
Defined.

(** X16: what the lookup cannot read, it raises on: a response that is not
    an object, or whose first claim is not an object, raises
    [AttributeError]; a first claim whose review list is present but empty
    raises [IndexError]; none of these is taken for an empty result. *)
Theorem summarize_parse_failures (w : world) :
  (forall data,
     (forall ms, data <> JObj ms) ->
     summarize w data = Raise AttributeError) /\
  (forall response c rest,
     member (lit "claims") response = Some (JArr (c :: rest)) ->
     (forall ms, c <> JObj ms) ->
     summarize w (JObj response) = Raise AttributeError) /\
  (forall response claim rest,
     member (lit "claims") response = Some (JArr (JObj claim :: rest)) ->
     member (lit "claimReview") claim = Some (JArr []) ->
     summarize w (JObj response) = Raise IndexError).
Proof.
  split; [|split].
  - intros [| | | | |ms] Hshape; try reflexivity. by destruct (Hshape ms).
  - intros response c rest Hc Hshape. unfold summarize.
    cbn [py_get py_item result_bind]. rewrite Hc.
    destruct c as [| | | | |ms]; try reflexivity. by destruct (Hshape ms).
  - intros response claim rest Hc Hr. unfold summarize.
    cbn [py_get py_item result_bind]. rewrite Hc.
    cbv [default from_option id truthy negb py_first result_bind py_get].
    by rewrite Hr.
Qed.

Lemma summarize_parse_failures_witness :
  summarize Scenario.calm
    (JObj [(lit "claims", JArr [JObj [(lit "claimReview", JArr [])]])])
  = Raise IndexError.
Proof.
  destruct (summarize_parse_failures Scenario.calm) as (_ & _ & Hempty).
  apply (Hempty _ [(lit "claimReview", JArr [])] []); reflexivity.
Defined.

(** ** The claim store over a whole run *)

Lemma dispatch_table_step (w : world) (upd : update) (st : bot_state) :
  map row_content (claims_table (state_of (dispatch w upd st))) =
    map row_content (claims_table st) ++ option_list (logged_claim_of (w, upd)).
Proof.
  pose proof (dispatch_table_frame w upd st) as Hframe.
  unfold logged_claim_of. cbn [fst snd].
  destruct upd as [| |u [|a args]| |u text|uid data];
    try (rewrite Hframe; simpl; by rewrite app_nil_r).
  cbn [dispatch]. rewrite factcheck_run. unfold state_of.
  destruct (db_commit w) as [[]|e0]; cbn [fst snd option_list];
    [|by rewrite app_nil_r].
  assert (Hrows : map row_content
                    (claims_table (logged w u (join [ch_space] (a :: args)) st))
                  = map row_content (claims_table st)
                    ++ [(user_id u, username u, join [ch_space] (a :: args))])
    by (unfold logged; cbn [claims_table]; by rewrite map_app).
  destruct (result_bind _ _) as [r|e1]; [|done].
  destruct (falsy r); [|done].
  by destruct (completion_content _ _).
Qed.

(** X17: after any series of updates the claims table is what it was,
    followed by one row for each [/factcheck] with arguments whose write went
    through, in the order of arrival, each with its sender's id and name and
    the words joined by single spaces; nothing else ever gets into the
    table, also not when the lookup after the write raised. *)
Theorem claim_store_contents (inputs : list (world * update)) (st : bot_state) :
  map row_content (claims_table (run_updates inputs st)) =
    map row_content (claims_table st) ++ omap logged_claim_of inputs.
Proof.
  revert st. induction inputs as [|[w upd] inputs IH]; intros st.
  - simpl. by rewrite app_nil_r.
  - change (run_updates ((w, upd) :: inputs) st)
      with (run_updates inputs (state_of (dispatch w upd st))).
    rewrite IH, dispatch_table_step, <- app_assoc. f_equal.
    change (omap logged_claim_of ((w, upd) :: inputs))
      with (match logged_claim_of (w, upd) with
            | Some c => c :: omap logged_claim_of inputs
            | None => omap logged_claim_of inputs
            end).
    by destruct (logged_claim_of (w, upd)).
Qed.

(** ** Words *)

Lemma split_ws_aux_word (cur p s : pystr) :
  forallb (fun c => negb (is_space c)) p = true ->
  split_ws_aux cur (p ++ s) = split_ws_aux (reverse p ++ cur) s.
Proof.
  revert cur. induction p as [|c p IH]; intros cur Hp; [done|].
  simpl in Hp. apply andb_true_iff in Hp as [Hc Hp].
  apply negb_true_iff in Hc. simpl. rewrite Hc, IH by done.
  by rewrite reverse_cons, <- app_assoc.
Qed.

(** X18: joining words by single spaces and splitting at whitespace are
    inverse to each other on words (non-empty, free of whitespace): the
    claim text that [/factcheck] builds from its arguments splits back into
    exactly these arguments, so it has as many words as there were
    arguments. *)
Theorem split_of_joined_words (words : list pystr) :
  forallb is_word words = true ->
  split_ws (join [ch_space] words) = words /\
  count_words (join [ch_space] words) = length words.
Proof.
  intros Hwords.
  assert (Hrev : forall (c : N) (p : pystr),
            exists x l, reverse (c :: p) ++ [] = x :: l).
  { intros c p. rewrite app_nil_r. destruct (reverse (c :: p)) eqn:E; [|by eexists _, _].
    apply (f_equal reverse) in E. rewrite reverse_involutive in E.
    discriminate E. }
  assert (Hsplit : split_ws (join [ch_space] words) = words).
  { unfold split_ws. induction words as [|p words IH]; [done|].
    simpl in Hwords. apply andb_true_iff in Hwords as [Hp Hwords].
    destruct p as [|c p]; [discriminate Hp|]. unfold is_word in Hp.
    destruct (Hrev c p) as (x & l & E).
    destruct words as [|q words].
    - cbn [join]. rewrite <- (app_nil_r (c :: p)) at 1.
      rewrite split_ws_aux_word by done.
      cbn [split_ws_aux]. rewrite E, <- E.
      by rewrite app_nil_r, reverse_involutive.
    - change (join [ch_space] ((c :: p) :: q :: words))
        with ((c :: p) ++ ch_space :: join [ch_space] (q :: words)).
      rewrite split_ws_aux_word by done.
      cbn [split_ws_aux].
      change (is_space ch_space) with true. cbn iota.
      rewrite E, <- E. rewrite app_nil_r, reverse_involutive.
      f_equal. by apply IH. }
  split; [done|]. by rewrite <- split_ws_length, Hsplit.
Qed.

Lemma split_of_joined_words_witness :
  split_ws (join [ch_space] [lit "Earth"; lit "is"; lit "flat"])
    = [lit "Earth"; lit "is"; lit "flat"] /\
  count_words (join [ch_space] [lit "Earth"; lit "is"; lit "flat"]) = 3%nat.
Proof.
  apply (split_of_joined_words [lit "Earth"; lit "is"; lit "flat"]).
  reflexivity.
Defined.

(** ** The admin list read at start-up *)

Lemma split_on_join (sep : N) (pieces : list pystr) :
  pieces <> [] -> Forall (fun p => sep ∉ p) pieces ->
  split_on sep (join [sep] pieces) = pieces.
Proof.
  intros Hne Hfree. unfold split_on.
  induction Hfree as [|p pieces Hp Hfree IH]; [done|].
  destruct pieces as [|q pieces].
  - cbn [join]. by rewrite split_on_aux_no_sep.
  - change (join [sep] (p :: q :: pieces))
      with (p ++ sep :: join [sep] (q :: pieces)).
    rewrite split_on_aux_cut by done. f_equal. by apply IH.
Qed.

Lemma split_on_aux_trailing (sep : N) (cur s : pystr) :
  split_on_aux sep cur (s ++ [sep]) = split_on_aux sep cur s ++ [[]].
Proof.
  revert cur. induction s as [|c s IH]; intros cur; simpl.
  - by rewrite N.eqb_refl.
  - destruct (c =? sep)%N; [by rewrite IH | apply IH].
Qed.

Lemma admin_ids_of_trailing (py_int : pystr -> result Z) (pieces : list pystr) :
  admin_ids_of py_int (pieces ++ [[]]) = admin_ids_of py_int pieces.
Proof.
  induction pieces as [|[|c p] pieces IH]; simpl; [done|done|].
  by rewrite IH.
Qed.

Lemma str_of_int_nonempty (n : Z) : str_of_int n <> [].
Proof.
  unfold str_of_int. destruct n as [|p|p]; simpl; [done| |done].
  pose proof (DecimalPos.Unsigned.to_uint_nonnil p) as Hnil.
  by destruct (Pos.to_uint p).
Qed.

Lemma str_of_int_no_comma (n : Z) : ch_comma ∉ str_of_int n.
Proof.
  intros [H|H]%str_of_int_chars; [discriminate H | unfold ch_comma in H; lia].
Qed.

Lemma admin_ids_of_numerals (py_int : pystr -> result Z) (ids : list Z) :
  (forall n, py_int (str_of_int n) = Return n) ->
  admin_ids_of py_int (map str_of_int ids) = Return ids.
Proof.
  intros Hint. induction ids as [|n ids IH]; [done|].
  cbn [map admin_ids_of].
  pose proof (str_of_int_nonempty n) as Hne.
  destruct (str_of_int n) as [|c s] eqn:E; [done|].
  rewrite <- E, Hint. cbn [result_bind]. by rewrite IH.
Qed.

(** X19: the admin list written as decimal numbers separated by commas is
    read back as exactly these numbers, in order; a comma at the end changes
    nothing; and with the variable unset the list is empty.  ([int] is
    assumed to read back what [str] writes.) *)
Theorem admin_ids_round_trip (py_int : pystr -> result Z) (ids : list Z) :
  (forall n, py_int (str_of_int n) = Return n) ->
  let text := join [ch_comma] (map str_of_int ids) in
  load_admin_ids py_int (Some text) = Return ids /\
  load_admin_ids py_int (Some (text ++ [ch_comma])) = Return ids /\
  load_admin_ids py_int None = Return [].
Proof.
  intros Hint text.
  assert (Hload : load_admin_ids py_int (Some text) = Return ids).
  { subst text. unfold load_admin_ids. cbn [default from_option id].
    destruct ids as [|n ids]; [done|].
    rewrite split_on_join.
    - by apply admin_ids_of_numerals.
    - done.
    - apply Forall_forall. intros p.
      rewrite list_elem_of_In, in_map_iff. intros (m & <- & _).
      apply str_of_int_no_comma. }
  split; [done|]. split; [|done].
  unfold load_admin_ids, split_on in *. cbn [default from_option id] in *.
  by rewrite split_on_aux_trailing, admin_ids_of_trailing.
Qed.

Lemma read_digits_digits (u : Decimal.uint) :
  Numerals.read_digits (digits u) = Some u.
Proof. induction u; simpl; by rewrite ?IHu. Qed.

Lemma read_int_str_of_int (n : Z) : Numerals.read_int (str_of_int n) = Return n.
Proof.
  rewrite <- (DecimalZ.of_to n) at 2.
  unfold str_of_int.
  assert (Hnonnil : match Z.to_int n with
                    | Decimal.Pos u | Decimal.Neg u => u <> Nil
                    end).
  { destruct n as [|p|p]; simpl; [done| |];
      apply DecimalPos.Unsigned.to_uint_nonnil. }
  destruct (Z.to_int n) as [u|u].
  - pose proof (digits_range u) as Hrange.
    pose proof (read_digits_digits u) as Hread.
    destruct (digits u) as [|c s] eqn:E.
    + destruct u; simpl in E; done.
    + unfold Numerals.read_int.
      destruct (N.eqb_spec c ch_minus) as [->|_].
      * specialize (Hrange ch_minus (list_elem_of_here _ _)).
        unfold ch_minus in Hrange. lia.
      * by rewrite Hread.
  - unfold Numerals.read_int. rewrite N.eqb_refl.
    pose proof (read_digits_digits u) as Hread.
    destruct (digits u) as [|c s] eqn:E.
    + destruct u; simpl in E; done.
    + by rewrite Hread.
Qed.

Lemma admin_ids_round_trip_witness :
  load_admin_ids Numerals.read_int (Some (lit "7,8,-1001234567890"))
    = Return [7; 8; -1001234567890] /\
  load_admin_ids Numerals.read_int (Some (lit "7,8,-1001234567890" ++ [ch_comma]))
    = Return [7; 8; -1001234567890] /\
  load_admin_ids Numerals.read_int None = Return [].
Proof.
  apply (admin_ids_round_trip Numerals.read_int [7; 8; -1001234567890]
           read_int_str_of_int).
Defined.

(** X20: an entry of the admin list that [int] refuses makes the loading
    raise with [int]'s exception, wherever it stands, provided the entries
    before it are empty or readable; the entries after it are not looked
    at. *)
Theorem admin_ids_refused_entry
    (py_int : pystr -> result Z) (before after : list pystr)
    (bad : pystr) (e : exn) :
  Forall (fun p => p = [] \/ exists n, py_int p = Return n) before ->
  bad <> [] ->
  py_int bad = Raise e ->
  admin_ids_of py_int (before ++ bad :: after) = Raise e.
Proof.
  intros Hbefore Hbad Hraise.
  induction Hbefore as [|p before Hp Hbefore IH]; simpl.
  - destruct bad as [|c s]; [done|]. by rewrite Hraise.
  - destruct Hp as [->|[n Hn]]; [done|].
    destruct p as [|c s]; [done|]. by rewrite Hn, IH.
Qed.

Lemma admin_ids_refused_entry_witness :
  load_admin_ids Numerals.read_int (Some (lit "7,,eight,9")) = Raise ValueError.
Proof.
  apply (admin_ids_refused_entry Numerals.read_int [lit "7"; []]
           [lit "9"] (lit "eight") ValueError).
  - constructor; [right; by exists 7|].
    constructor; [by left | constructor].
  - discriminate.
  - reflexivity.
Defined.

(** ** The further properties at concrete inputs *)

(** A decidable fact about literals, by evaluation. *)
Ltac by_evaluation := apply (bool_decide_unpack _); vm_compute; exact I.

Lemma stored_votes_are_final_witness :
  feedback_store
    (run_updates
       [(Scenario.calm, CallbackQuery 42 (lit "vote_no:Earth_is_flat"));
        (Scenario.calm, QuicknewsCommand);
        (Scenario.calm, CallbackQuery 42 (lit "vote_no:Ratio_is_3:1"))]
       {| claims_table := [];
          feedback_store := {[ lit "Earth_is_flat_42" := lit "vote_yes" ]} |})
    !! lit "Earth_is_flat_42" = Some (lit "vote_yes").
Proof.
  apply (stored_votes_are_final _ _ (lit "Earth_is_flat_42") (lit "vote_yes")).
  vm_compute. reflexivity.
Defined.

Lemma first_vote_is_kept_witness :
  replies (trace_of (dispatch Scenario.calm
                       (CallbackQuery 42 (lit "vote_yes:Earth_is_flat"))
                       Scenario.empty_state)) = [thanks] /\
  feedback_store
    (run_updates
       [(Scenario.calm, CallbackQuery 42 (lit "vote_yes:Earth_is_flat"));
        (Scenario.calm, CallbackQuery 42 (lit "vote_no:Earth_is_flat"))]
       Scenario.empty_state)
    !! vote_key (lit "Earth_is_flat") 42 = Some (lit "vote_yes").
Proof.
  apply (first_vote_is_kept Scenario.calm (lit "vote_yes")
           (lit "Earth_is_flat") 42
           [(Scenario.calm, CallbackQuery 42 (lit "vote_no:Earth_is_flat"))]
           Scenario.empty_state).
  - by_evaluation.
  - by_evaluation.
  - vm_compute. reflexivity.
Defined.

Lemma repeated_vote_changes_nothing_witness :
  let st := {| claims_table := [];
               feedback_store := {[ lit "Earth_is_flat_42" := lit "vote_yes" ]} |} in
  replies (trace_of (vote_handler 42 (lit "vote_no:Earth_is_flat") st))
    = [already_voted] /\
  state_of (vote_handler 42 (lit "vote_no:Earth_is_flat") st) = st /\
  outcome_of (vote_handler 42 (lit "vote_no:Earth_is_flat") st) = Return tt.
Proof.
  intros st.
  apply (repeated_vote_changes_nothing (lit "vote_no") (lit "Earth_is_flat")
           42 st).
  - by_evaluation.
  - by_evaluation.
  - by_evaluation.
Defined.

Lemma vote_touches_own_pair_only_witness :
  feedback_store
    (state_of (vote_handler 1 (lit "vote_yes:Earth_is_flat")
                 Scenario.empty_state))
    !! vote_key (lit "Earth_is_flat") 2
  = feedback_store Scenario.empty_state !! vote_key (lit "Earth_is_flat") 2.
Proof.
  apply (vote_touches_own_pair_only 1 (lit "vote_yes:Earth_is_flat")
           Scenario.empty_state (lit "Earth_is_flat") 2).
  right. lia.
Defined.

Lemma vote_button_round_trip_witness :
  map (fun b =>
         feedback_store
           (state_of (vote_handler 42 (callback_data b) Scenario.empty_state))
           !! vote_key (lit "Earth_is_flat") 42)
      (create_vote_buttons (lit "Earth_is_flat"))
  = [Some (lit "vote_yes"); Some (lit "vote_no")].
Proof.
  apply (vote_button_round_trip (lit "Earth_is_flat") 42 Scenario.empty_state).
  - vm_compute. reflexivity.
  - by_evaluation.
Defined.

Lemma claim_id_shape_witness :
  create_vote_buttons (claim_id_of (lit "Earth_is flat"))
    = create_vote_buttons (claim_id_of (lit "Earth is_flat")).
Proof.
  apply (claim_id_shape (lit "Earth is_flat")). reflexivity.
Defined.

Lemma vote_payload_unpacking_witness :
  vote_handler 42 (lit "vote_yes") Scenario.empty_state
    = ([AnswerCallback], Scenario.empty_state, Raise ValueError).
Proof.
  apply (vote_payload_unpacking 42 (lit "vote_yes") Scenario.empty_state).
  vm_compute. lia.
Defined.

Lemma vote_key_identifies_pair_witness :
  lit "a_1" = lit "a_1" /\ 2 = 2.
Proof.
  apply (vote_key_identifies_pair (lit "a_1") (lit "a_1") 2 2). reflexivity.
Defined.
